(** * A shallow embedding of the storefront backend (src/app.py)

    The request handlers of [app.py] are embedded as computations in a small
    state-and-exception monad over a [world]: the four MongoDB collections,
    the id generator of the store, the log of events pushed on the realtime
    channel, the clock and the entropy used for password salts.

    Modelling conventions.
    - Request bodies and stored field values are Python values parsed from
      JSON ([pyval]); JSON numbers are modelled as integers (floats are not
      modelled).
    - A stored document is its store-generated [_id] together with its
      remaining fields, in insertion order.
    - Only the filter shapes the handlers use are modelled: the empty
      filter, [{'_id': ObjectId(..)}] and [{field: value}]; a field filter
      follows MongoDB's equality match (equal value, array containing the
      value, null matching an absent field).  Query-operator documents are
      compared as plain values.
    - An exception that no handler catches is the [Raise] outcome; the
      world reached at that point is kept, since nothing is rolled back.

    The libraries are idealised, and the statements say where they rely
    on it.
    - The store takes every value as it is.  pymongo refuses an integer
      beyond 64 bits, the server evaluates, or refuses, an object whose
      key starts with a dollar sign, and a document is at most 16 MB and
      100 levels deep; statements that promise a store call to go through
      are about [plain] values, for which the store does what the model
      does.
    - [parse_oid] takes twenty-four hexadecimal digits.  [bson] also takes
      some strings of twenty-four characters with white space among the
      digits; statements about refused ids are about strings that are
      surely refused ([surely_not_an_id]).
    - [check_hash] answers for every stored string.  werkzeug raises on a
      stored hash whose method it does not know; statements that promise
      a verdict are about hashes the library wrote ([hash_made]) or take
      the verdict as given.
    - [emit] always goes through.  With recent versions of python-socketio
      the keyword [broadcast] makes [socketio.emit] raise after the stock
      was written; the model is that of the versions that take it. *)

From Stdlib Require Import List String Ascii ZArith NArith Bool Lia.
Import ListNotations.
Local Open Scope string_scope.
Local Open Scope list_scope.

(** ** Python values *)

Local Unset Elimination Schemes.

Inductive pyval : Type :=
| PNone
| PBool (b : bool)
| PInt (n : Z)
| PStr (s : string)
| PList (l : list pyval)
| PDict (d : list (string * pyval)).

Local Set Elimination Schemes.

(** A Python [dict] with string keys, in insertion order. *)
Definition dict := list (string * pyval).

(** [bool(v)]: the truth value Python's [not v] tests. *)
Definition truthy (v : pyval) : bool :=
  match v with
  | PNone => false
  | PBool b => b
  | PInt n => negb (Z.eqb n 0)
  | PStr s => negb (String.eqb s "")
  | PList l => match l with [] => false | _ :: _ => true end
  | PDict d => match d with [] => false | _ :: _ => true end
  end.

(** [v is None] *)
Definition is_None (v : pyval) : bool :=
  match v with PNone => true | _ => false end.

(** Structural equality of values (BSON comparison: field order matters and
    booleans are not numbers). *)
Fixpoint pyval_eqb (a b : pyval) {struct a} : bool :=
  match a, b with
  | PNone, PNone => true
  | PBool x, PBool y => Bool.eqb x y
  | PInt x, PInt y => Z.eqb x y
  | PStr x, PStr y => String.eqb x y
  | PList xs, PList ys =>
      (fix all2 (xs ys : list pyval) {struct xs} : bool :=
         match xs, ys with
         | [], [] => true
         | x :: xs', y :: ys' => pyval_eqb x y && all2 xs' ys'
         | _, _ => false
         end) xs ys
  | PDict xs, PDict ys =>
      (fix all2 (xs ys : list (string * pyval)) {struct xs} : bool :=
         match xs, ys with
         | [], [] => true
         | (k, x) :: xs', (l, y) :: ys' =>
             String.eqb k l && pyval_eqb x y && all2 xs' ys'
         | _, _ => false
         end) xs ys
  | _, _ => false
  end.

Definition dict_eqb (a b : dict) : bool := pyval_eqb (PDict a) (PDict b).

(** [d.get(k)] on a dict: the value of the first binding of [k]. *)
Fixpoint dict_get (k : string) (d : dict) : option pyval :=
  match d with
  | [] => None
  | (k', v) :: d' => if String.eqb k k' then Some v else dict_get k d'
  end.

(** [k in d] *)
Definition dict_has (k : string) (d : dict) : bool :=
  match dict_get k d with Some _ => true | None => false end.

(** [d[k] = v]: overwrite in place, or append a new binding. *)
Fixpoint dict_set (k : string) (v : pyval) (d : dict) : dict :=
  match d with
  | [] => [(k, v)]
  | (k', v') :: d' =>
      if String.eqb k k' then (k', v) :: d' else (k', v') :: dict_set k v d'
  end.

(** Drop every binding of [k] (projection [{k: 0}]). *)
Definition dict_remove (k : string) (d : dict) : dict :=
  filter (fun kv => negb (String.eqb k (fst kv))) d.

(** Keep only the bindings whose key is listed (projection [{k: 1, ...}]). *)
Definition dict_only (ks : list string) (d : dict) : dict :=
  filter (fun kv => existsb (String.eqb (fst kv)) ks) d.

(** ** Store identifiers *)

(** An [ObjectId] is twelve bytes; it is modelled by the number they
    denote. *)
Definition oid := N.

Definition hex_digit (c : ascii) : option N :=
  let n := N_of_ascii c in
  if (48 <=? n)%N && (n <=? 57)%N then Some (n - 48)%N
  else if (97 <=? n)%N && (n <=? 102)%N then Some (n - 87)%N
  else if (65 <=? n)%N && (n <=? 70)%N then Some (n - 55)%N
  else None.

Fixpoint parse_hex_from (acc : N) (s : string) : option N :=
  match s with
  | EmptyString => Some acc
  | String c s' =>
      match hex_digit c with
      | Some d => parse_hex_from (16 * acc + d)%N s'
      | None => None
      end
  end.

(** [bytes.fromhex] restricted to strings of hexadecimal digits. *)
Definition parse_hex (s : string) : option N := parse_hex_from 0%N s.

Definition hex_char (d : N) : ascii :=
  if (d <? 10)%N then ascii_of_N (48 + d) else ascii_of_N (87 + d).

Fixpoint hex_pad (width : nat) (n : N) (acc : string) : string :=
  match width with
  | O => acc
  | S w => hex_pad w (n / 16)%N (String (hex_char (n mod 16)%N) acc)
  end.

(** [str(oid)]: twenty-four lower-case hexadecimal digits. *)
Definition str_oid (o : oid) : string := hex_pad 24 o "".

(** ** Clock *)

Record datetime : Type := mk_datetime {
  year : N; month : N; day : N;
  hour : N; minute : N; second : N; microsecond : N
}.

Definition dec_char (d : N) : ascii := ascii_of_N (48 + d).

Fixpoint dec_pad (width : nat) (n : N) (acc : string) : string :=
  match width with
  | O => acc
  | S w => dec_pad w (n / 10)%N (String (dec_char (n mod 10)%N) acc)
  end.

(** [datetime.isoformat()]: [YYYY-MM-DDTHH:MM:SS], followed by [.ffffff]
    when the microsecond part is not zero. *)
Definition isoformat (t : datetime) : string :=
  dec_pad 4 (year t) "" ++ "-" ++ dec_pad 2 (month t) "" ++ "-" ++
  dec_pad 2 (day t) "" ++ "T" ++ dec_pad 2 (hour t) "" ++ ":" ++
  dec_pad 2 (minute t) "" ++ ":" ++ dec_pad 2 (second t) "" ++
  (if (microsecond t =? 0)%N then "" else "." ++ dec_pad 6 (microsecond t) "").

(** ** The document store *)

(** A stored document: MongoDB gives every document an [_id]. *)
Record doc : Type := mk_doc { doc_id : oid; doc_fields : dict }.

Inductive collection : Type :=
| users_collection
| products_collection
| orders_collection
| cart_collection.

(** The filters the handlers build. *)
Inductive query : Type :=
| q_all                                  (* {} *)
| q_id (o : oid)                         (* {'_id': ObjectId(..)} *)
| q_field (k : string) (v : pyval).      (* {k: v} *)

(** MongoDB's equality match of a query value against a field. *)
Definition field_matches (q : pyval) (f : option pyval) : bool :=
  match f with
  | None => is_None q
  | Some v =>
      pyval_eqb v q ||
      match v with
      | PList l => existsb (fun x => pyval_eqb x q) l
      | _ => false
      end
  end.

Definition matches (q : query) (d : doc) : bool :=
  match q with
  | q_all => true
  | q_id o => N.eqb (doc_id d) o
  | q_field k v => field_matches v (dict_get k (doc_fields d))
  end.

(** An event pushed to every connected realtime client. *)
Record event : Type := mk_event { event_name : string; event_data : pyval }.

Record world : Type := mk_world {
  users : list doc;
  products : list doc;
  orders : list doc;
  carts : list doc;
  next_oid : oid;            (* the next id the store hands out *)
  emitted : list event;      (* broadcasts so far, oldest first *)
  clock : datetime;          (* what [datetime.utcnow()] reads *)
  entropy : N                (* salts drawn so far *)
}.

Definition coll (c : collection) (w : world) : list doc :=
  match c with
  | users_collection => users w
  | products_collection => products w
  | orders_collection => orders w
  | cart_collection => carts w
  end.

Definition set_coll (c : collection) (l : list doc) (w : world) : world :=
  match c with
  | users_collection =>
      mk_world l (products w) (orders w) (carts w)
               (next_oid w) (emitted w) (clock w) (entropy w)
  | products_collection =>
      mk_world (users w) l (orders w) (carts w)
               (next_oid w) (emitted w) (clock w) (entropy w)
  | orders_collection =>
      mk_world (users w) (products w) l (carts w)
               (next_oid w) (emitted w) (clock w) (entropy w)
  | cart_collection =>
      mk_world (users w) (products w) (orders w) l
               (next_oid w) (emitted w) (clock w) (entropy w)
  end.

Definition set_next_oid (n : oid) (w : world) : world :=
  mk_world (users w) (products w) (orders w) (carts w)
           n (emitted w) (clock w) (entropy w).

Definition set_emitted (l : list event) (w : world) : world :=
  mk_world (users w) (products w) (orders w) (carts w)
           (next_oid w) l (clock w) (entropy w).

Definition set_entropy (n : N) (w : world) : world :=
  mk_world (users w) (products w) (orders w) (carts w)
           (next_oid w) (emitted w) (clock w) n.

(** ** Computations *)

Inductive exn : Type :=
| InvalidId          (* bson.errors.InvalidId *)
| AttributeError
| KeyError
| TypeError.

Inductive outcome (A : Type) : Type :=
| Return (a : A)
| Raise (e : exn).
Arguments Return {A} a.
Arguments Raise {A} e.

Definition M (A : Type) : Type := world -> outcome A * world.

Definition ret {A} (a : A) : M A := fun w => (Return a, w).

Definition raise {A} (e : exn) : M A := fun w => (Raise e, w).

Definition bind {A B} (m : M A) (k : A -> M B) : M B :=
  fun w =>
    match m w with
    | (Return a, w') => k a w'
    | (Raise e, w') => (Raise e, w')
    end.

Notation "x <- m ;; k" := (bind m (fun x => k))
  (at level 61, m at next level, right associativity).
Notation "m ;;; k" := (bind m (fun _ => k))
  (at level 61, right associativity).

Definition read {A} (f : world -> A) : M A := fun w => (Return (f w), w).

Definition write (f : world -> world) : M unit := fun w => (Return tt, f w).

(** ** Store primitives (pymongo) *)

Record update_result : Type := mk_update_result {
  matched_count : nat;
  modified_count : nat
}.

(** [$set]: assign the listed fields, left to right. *)
Definition apply_set (sets : dict) (fields : dict) : dict :=
  fold_left (fun acc kv => dict_set (fst kv) (snd kv) acc) sets fields.

(** Rewrite the first document satisfying [p]; [None] when there is none. *)
Fixpoint update_first (p : doc -> bool) (f : doc -> doc) (l : list doc)
  : option (list doc) :=
  match l with
  | [] => None
  | d :: l' =>
      if p d then Some (f d :: l')
      else match update_first p f l' with
           | Some l'' => Some (d :: l'')
           | None => None
           end
  end.

(** Remove the first document satisfying [p]. *)
Fixpoint remove_first (p : doc -> bool) (l : list doc) : list doc :=
  match l with
  | [] => []
  | d :: l' => if p d then l' else d :: remove_first p l'
  end.

(** The equality fields a filter contributes to an upserted document. *)
Definition query_fields (q : query) : dict :=
  match q with
  | q_field k v => [(k, v)]
  | _ => []
  end.

Definition set_fields (sets : dict) (d : doc) : doc :=
  mk_doc (doc_id d) (apply_set sets (doc_fields d)).

Definition fresh_oid : M oid :=
  fun w => (Return (next_oid w), set_next_oid (N.succ (next_oid w)) w).

Definition find_one (c : collection) (q : query) : M (option doc) :=
  read (fun w => find (matches q) (coll c w)).

Definition find_all (c : collection) (q : query) : M (list doc) :=
  read (fun w => filter (matches q) (coll c w)).

Definition insert_one (c : collection) (fields : dict) : M oid :=
  i <- fresh_oid ;;
  write (fun w => set_coll c (coll c w ++ [mk_doc i fields]) w) ;;;
  ret i.

Definition update_one (c : collection) (q : query) (sets : dict)
           (upsert : bool) : M update_result :=
  found <- find_one c q ;;
  match found with
  | Some d =>
      write (fun w =>
               match update_first (matches q) (set_fields sets) (coll c w) with
               | Some l => set_coll c l w
               | None => w
               end) ;;;
      ret (mk_update_result 1
             (if dict_eqb (doc_fields d) (apply_set sets (doc_fields d))
              then 0 else 1))
  | None =>
      if upsert then
        insert_one c (apply_set sets (query_fields q)) ;;;
        ret (mk_update_result 0 0)
      else ret (mk_update_result 0 0)
  end.

(** [delete_one]: returns [deleted_count]. *)
Definition delete_one (c : collection) (q : query) : M nat :=
  found <- find_one c q ;;
  match found with
  | Some _ =>
      write (fun w => set_coll c (remove_first (matches q) (coll c w)) w) ;;;
      ret 1
  | None => ret 0
  end.

(** [delete_many]: returns [deleted_count]. *)
Definition delete_many (c : collection) (q : query) : M nat :=
  hit <- find_all c q ;;
  write (fun w =>
           set_coll c (filter (fun d => negb (matches q d)) (coll c w)) w) ;;;
  ret (List.length hit).

(** ** Library calls *)

(** [ObjectId(s)] for a path segment [s]: twenty-four hexadecimal digits,
    and [InvalidId] otherwise. *)
Definition parse_oid (s : string) : option oid :=
  if Nat.eqb (String.length s) 24 then parse_hex s else None.

Definition ObjectId (s : string) : M oid :=
  match parse_oid s with
  | Some o => ret o
  | None => raise InvalidId
  end.

(** [v.get(k)]: defined on dicts only; [None] when the key is absent. *)
Definition py_get (v : pyval) (k : string) : M pyval :=
  match v with
  | PDict d => ret (match dict_get k d with Some x => x | None => PNone end)
  | _ => raise AttributeError
  end.

(** [d[k]] on a dict. *)
Definition py_getitem (d : dict) (k : string) : M pyval :=
  match dict_get k d with
  | Some x => ret x
  | None => raise KeyError
  end.

(** [v[k] = x] where [v] already answered [.get]. *)
Definition py_setitem (v : pyval) (k : string) (x : pyval) : M pyval :=
  match v with
  | PDict d => ret (PDict (dict_set k x d))
  | _ => raise TypeError
  end.

Fixpoint chars (s : string) : list pyval :=
  match s with
  | EmptyString => []
  | String c s' => PStr (String c EmptyString) :: chars s'
  end.

(** [for x in v]: the elements a [for] loop visits. *)
Definition py_iter (v : pyval) : M (list pyval) :=
  match v with
  | PList l => ret l
  | PStr s => ret (chars s)
  | PDict d => ret (map (fun kv => PStr (fst kv)) d)
  | _ => raise TypeError
  end.

(** [socketio.emit(name, data, broadcast=True)] *)
Definition emit (name : string) (data : pyval) : M unit :=
  write (fun w => set_emitted (emitted w ++ [mk_event name data]) w).

(** [datetime.utcnow()] *)
Definition utcnow : M datetime := read clock.

(** A response: the value given to [jsonify] and the status code. *)
Definition response : Type := (pyval * Z)%type.

Definition jsonify_error (msg : string) (code : Z) : M response :=
  ret (PDict [("error", PStr msg)], code).

Definition jsonify_message (msg : string) (code : Z) : M response :=
  ret (PDict [("message", PStr msg)], code).

(** A document as the dict pymongo returns. *)
Definition as_dict (d : doc) : dict :=
  ("_id", PStr (str_oid (doc_id d))) :: doc_fields d.

(** werkzeug's password hashing, kept abstract: [hash_with salt password]
    is the stored string, [check_password_hash stored password] the check;
    [salt_of] turns drawn entropy into a salt. *)
Class PasswordHasher : Type := {
  salt_of : N -> string;
  hash_with : string -> string -> string;
  check_hash : string -> string -> bool
}.

(** ** The request handlers of app.py *)

Section Handlers.

Context {hasher : PasswordHasher}.

(** [generate_password_hash(password)]: draws a fresh salt. *)
Definition generate_password_hash (password : pyval) : M string :=
  match password with
  | PStr p =>
      fun w =>
        (Return (hash_with (salt_of (entropy w)) p),
         set_entropy (N.succ (entropy w)) w)
  | _ => raise AttributeError
  end.

(** [check_password_hash(pwhash, password)] *)
Definition check_password_hash (pwhash password : pyval) : M bool :=
  match pwhash, password with
  | PStr h, PStr p => ret (check_hash h p)
  | _, _ => raise AttributeError
  end.

(** The truth value of what [find_one] returned. *)
Definition found (r : option doc) : bool :=
  match r with
  | Some d => truthy (PDict (as_dict d))
  | None => false
  end.

(** POST /api/register *)
Definition register (data : pyval) : M response :=
  name <- py_get data "name" ;;
  email <- py_get data "email" ;;
  password <- py_get data "password" ;;
  if negb (truthy name) || negb (truthy email) || negb (truthy password) then
    jsonify_error "Missing required fields" 400
  else
    existing <- find_one users_collection (q_field "email" email) ;;
    if found existing then
      jsonify_error "Email already registered" 400
    else
      hashed_password <- generate_password_hash password ;;
      insert_one users_collection
        [("name", name); ("email", email);
         ("password", PStr hashed_password)] ;;;
      jsonify_message "User registered successfully" 201.

(** POST /api/login *)
Definition login (data : pyval) : M response :=
  email <- py_get data "email" ;;
  password <- py_get data "password" ;;
  if negb (truthy email) || negb (truthy password) then
    jsonify_error "Missing email or password" 400
  else
    user <- find_one users_collection (q_field "email" email) ;;
    match user with
    | Some u =>
        if negb (found user) then
          jsonify_error "Invalid email or password" 401
        else
          stored <- py_getitem (as_dict u) "password" ;;
          ok <- check_password_hash stored password ;;
          if negb ok then
            jsonify_error "Invalid email or password" 401
          else
            name <- py_getitem (as_dict u) "name" ;;
            ret (PDict [("message", PStr "Login successful");
                        ("name", name)], 200%Z)
    | None => jsonify_error "Invalid email or password" 401
    end.

(** GET /api/products *)
Definition get_products : M response :=
  found_products <- find_all products_collection q_all ;;
  ret (PList (map (fun d => PDict (doc_fields d)) found_products), 200%Z).

(** POST /api/products/<int:product_id>/stock *)
Definition update_stock (product_id : Z) (data : pyval) : M response :=
  new_stock <- py_get data "stock" ;;
  if is_None new_stock then
    jsonify_error "Missing stock value" 400
  else
    result <- update_one products_collection (q_field "id" (PInt product_id))
                [("stock", new_stock)] false ;;
    if Nat.eqb (matched_count result) 0 then
      jsonify_error "Product not found" 404
    else
      emit "stock_update"
        (PDict [("product_id", PInt product_id); ("stock", new_stock)]) ;;;
      jsonify_message "Stock updated" 200.

(** The body of the loop that copies the product image into an item. *)
Definition enrich_item (item : pyval) : M pyval :=
  item_id <- py_get item "id" ;;
  product <- find_one products_collection (q_field "id" item_id) ;;
  match product with
  | Some p =>
      if found product && dict_has "image" (as_dict p) then
        image <- py_getitem (as_dict p) "image" ;;
        py_setitem item "image" image
      else py_setitem item "image" (PStr "")
  | None => py_setitem item "image" (PStr "")
  end.

Fixpoint enrich_items (items : list pyval) (enriched : list pyval)
  : M (list pyval) :=
  match items with
  | [] => ret enriched
  | item :: rest =>
      item' <- enrich_item item ;;
      enrich_items rest (enriched ++ [item'])
  end.

(** POST /api/orders *)
Definition create_order (data : pyval) : M response :=
  user_email <- py_get data "user_email" ;;
  items <- py_get data "items" ;;
  city <- py_get data "city" ;;
  pincode <- py_get data "pincode" ;;
  total_price <- py_get data "total_price" ;;
  if negb (truthy user_email) || negb (truthy items) || negb (truthy city)
     || negb (truthy pincode) || is_None total_price then
    jsonify_error "Missing required order fields" 400
  else
    elements <- py_iter items ;;
    enriched_items <- enrich_items elements [] ;;
    now <- utcnow ;;
    insert_one orders_collection
      [("user_email", user_email);
       ("items", PList enriched_items);
       ("city", city);
       ("pincode", pincode);
       ("total_price", total_price);
       ("status", PStr "Pending");
       ("order_date", PStr (isoformat now));
       ("cancellationRequested", PBool false)] ;;;
    jsonify_message "Order placed successfully" 201.

(** GET /api/orders/<user_email> *)
Definition get_orders (user_email : string) : M response :=
  found_orders <- find_all orders_collection
                    (q_field "user_email" (PStr user_email)) ;;
  ret (PList (map (fun d => PDict (as_dict d)) found_orders), 200%Z).

(** POST /api/orders/<order_id>/request-cancellation *)
Definition request_cancellation (order_id : string) : M response :=
  o <- ObjectId order_id ;;
  result <- update_one orders_collection (q_id o)
              [("cancellationRequested", PBool true)] false ;;
  if Nat.eqb (matched_count result) 0 then
    jsonify_error "Order not found" 404
  else jsonify_message "Cancellation requested successfully" 200.

Definition admin_order_fields : list string :=
  ["user_email"; "items"; "city"; "pincode"; "total_price"; "status";
   "order_date"; "cancellationRequested"].

(** GET /api/admin/orders *)
Definition admin_get_orders : M response :=
  found_orders <- find_all orders_collection q_all ;;
  ret (PList (map (fun d =>
                     PDict (("_id", PStr (str_oid (doc_id d)))
                              :: dict_only admin_order_fields (doc_fields d)))
                  found_orders), 200%Z).

(** PUT /api/admin/orders/<order_id>/status *)
Definition admin_update_order_status (order_id : string) (data : pyval)
  : M response :=
  new_status <- py_get data "status" ;;
  if negb (truthy new_status) then
    jsonify_error "Missing status" 400
  else
    o <- ObjectId order_id ;;
    result <- update_one orders_collection (q_id o)
                [("status", new_status)] false ;;
    if Nat.eqb (matched_count result) 0 then
      jsonify_error "Order not found" 404
    else jsonify_message "Order status updated successfully" 200.

(** GET /api/cart/<user_email> *)
Definition get_cart (user_email : string) : M response :=
  cart <- find_one cart_collection (q_field "user_email" (PStr user_email)) ;;
  match cart with
  | Some c =>
      if truthy (PDict (doc_fields c)) then
        ret (match dict_get "items" (doc_fields c) with
             | Some items => items
             | None => PList []
             end, 200%Z)
      else ret (PList [], 200%Z)
  | None => ret (PList [], 200%Z)
  end.

(** POST /api/cart *)
Definition save_cart (data : pyval) : M response :=
  user_email <- py_get data "user_email" ;;
  items <- py_get data "items" ;;
  if negb (truthy user_email) || is_None items then
    jsonify_error "Missing user_email or items" 400
  else
    update_one cart_collection (q_field "user_email" user_email)
      [("items", items)] true ;;;
    jsonify_message "Cart saved successfully" 200.

(** socket event 'chat_message' *)
Definition handle_chat_message (data : pyval) : M unit :=
  message <- py_get data "message" ;;
  if truthy message then
    emit "chat_message" (PDict [("message", message)])
  else ret tt.

(** GET /api/admin/users *)
Definition admin_get_users : M response :=
  found_users <- find_all users_collection q_all ;;
  ret (PList (map (fun d =>
                     PDict (("_id", PStr (str_oid (doc_id d)))
                              :: dict_remove "password" (doc_fields d)))
                  found_users), 200%Z).

(** DELETE /api/admin/users/<user_id> *)
Definition admin_delete_user (user_id : string) : M response :=
  o <- ObjectId user_id ;;
  user <- find_one users_collection (q_id o) ;;
  match user with
  | Some u =>
      if negb (found user) then jsonify_error "User not found" 404
      else
        user_email <- py_get (PDict (as_dict u)) "email" ;;
        o' <- ObjectId user_id ;;
        deleted_count <- delete_one users_collection (q_id o') ;;
        if Nat.eqb deleted_count 0 then jsonify_error "User not found" 404
        else
          delete_many orders_collection (q_field "user_email" user_email) ;;;
          jsonify_message "User and their orders removed successfully" 200
  | None => jsonify_error "User not found" 404
  end.

(** PUT /api/admin/update-credentials *)
Definition update_admin_credentials (data : pyval) : M response :=
  current_email <- py_get data "current_email" ;;
  new_email <- py_get data "new_email" ;;
  new_password <- py_get data "new_password" ;;
  if negb (truthy current_email) || negb (truthy new_email)
     || negb (truthy new_password) then
    jsonify_error "Missing required fields" 400
  else
    admin_user <- find_one users_collection (q_field "email" current_email) ;;
    if negb (found admin_user) then
      jsonify_error "Admin user not found" 404
    else
      hashed_password <- generate_password_hash new_password ;;
      update_result <- update_one users_collection
                         (q_field "email" current_email)
                         [("email", new_email);
                          ("password", PStr hashed_password)] false ;;
      if Nat.eqb (modified_count update_result) 0 then
        jsonify_error "Failed to update admin credentials" 500
      else jsonify_message "Admin credentials updated successfully" 200.

(** ** Requests and runs *)

(** One request to the HTTP boundary. *)
Inductive request : Type :=
| POST_register (data : pyval)
| POST_login (data : pyval)
| GET_products
| POST_stock (product_id : Z) (data : pyval)
| POST_orders (data : pyval)
| GET_orders (user_email : string)
| POST_request_cancellation (order_id : string)
| GET_admin_orders
| PUT_admin_order_status (order_id : string) (data : pyval)
| GET_cart (user_email : string)
| POST_cart (data : pyval)
| GET_admin_users
| DELETE_admin_user (user_id : string)
| PUT_admin_credentials (data : pyval).

(** Routing: the handler bound to each request. *)
Definition dispatch (r : request) : M response :=
  match r with
  | POST_register data => register data
  | POST_login data => login data
  | GET_products => get_products
  | POST_stock product_id data => update_stock product_id data
  | POST_orders data => create_order data
  | GET_orders user_email => get_orders user_email
  | POST_request_cancellation order_id => request_cancellation order_id
  | GET_admin_orders => admin_get_orders
  | PUT_admin_order_status order_id data =>
      admin_update_order_status order_id data
  | GET_cart user_email => get_cart user_email
  | POST_cart data => save_cart data
  | GET_admin_users => admin_get_users
  | DELETE_admin_user user_id => admin_delete_user user_id
  | PUT_admin_credentials data => update_admin_credentials data
  end.

(** The world after serving the requests in order; a request whose handler
    raised leaves the world as it was at the raise. *)
Fixpoint serve (rs : list request) (w : world) : world :=
  match rs with
  | [] => w
  | r :: rs' => serve rs' (snd (dispatch r w))
  end.

End Handlers.

(** ** Vocabulary of the statements *)

(** [data.get(k)] for a request body that is a JSON object. *)
Definition body_field (data : dict) (k : string) : pyval :=
  match dict_get k data with
  | Some v => v
  | None => PNone
  end.

Definition error_body (msg : string) : pyval := PDict [("error", PStr msg)].

Definition message_body (msg : string) : pyval :=
  PDict [("message", PStr msg)].

(** The broadcast a stock update pushes. *)
Definition stock_event (product_id : Z) (stock : pyval) : event :=
  mk_event "stock_update"
           (PDict [("product_id", PInt product_id); ("stock", stock)]).

(** The image an order item is to carry, in the specification's words: the
    image of the product currently matching the item's id, and the empty
    string when there is no such product or it has no image. *)
Definition image_for (ps : list doc) (item : dict) : pyval :=
  match find (matches (q_field "id" (body_field item "id"))) ps with
  | Some p =>
      match dict_get "image" (doc_fields p) with
      | Some image => image
      | None => PStr ""
      end
  | None => PStr ""
  end.

Definition with_image (ps : list doc) (item : dict) : pyval :=
  PDict (dict_set "image" (image_for ps item) item).

(** The values Python's [not v] accepts. *)
Definition falsy (v : pyval) : Prop :=
  v = PNone \/ v = PBool false \/ v = PInt 0 \/ v = PStr "" \/
  v = PList [] \/ v = PDict [].

(** The order a successful [create_order] persists. *)
Definition new_order (w : world) (data : dict) (items : list dict) : doc :=
  mk_doc (next_oid w)
    [("user_email", body_field data "user_email");
     ("items", PList (map (with_image (products w)) items));
     ("city", body_field data "city");
     ("pincode", body_field data "pincode");
     ("total_price", body_field data "total_price");
     ("status", PStr "Pending");
     ("order_date", PStr (isoformat (clock w)));
     ("cancellationRequested", PBool false)].

(** The presence test of [create_order], on a body that is an object. *)
Definition order_rejected (data : dict) : bool :=
  negb (truthy (body_field data "user_email"))
  || negb (truthy (body_field data "items"))
  || negb (truthy (body_field data "city"))
  || negb (truthy (body_field data "pincode"))
  || is_None (body_field data "total_price").

(** [keeps P m]: running [m] from a world satisfying [P] ends, by return or
    by raise, in a world satisfying [P]. *)
Definition keeps {A} (P : world -> Prop) (m : M A) : Prop :=
  forall w, P w -> P (snd (m w)).

(** [reads m]: [m] leaves the world as it found it. *)
Definition reads {A} (m : M A) : Prop := forall w, snd (m w) = w.

(** A stored user that [login] can process: a string password hash and a
    name. *)
Definition user_ok (u : doc) : bool :=
  match dict_get "password" (doc_fields u) with
  | Some (PStr _) => dict_has "name" (doc_fields u)
  | _ => false
  end.

Definition users_ok (w : world) : bool := forallb user_ok (users w).

Definition is_dict (v : pyval) : bool :=
  match v with PDict _ => true | _ => false end.

(** A text field: a string, or absent. *)
Definition text_or_absent (v : pyval) : bool :=
  match v with PStr _ | PNone => true | _ => false end.

(** An item list: a list of objects, or absent. *)
Definition items_or_absent (v : pyval) : bool :=
  match v with
  | PNone => true
  | PList l => forallb is_dict l
  | _ => false
  end.

Definition is_oid (s : string) : bool :=
  match parse_oid s with Some _ => true | None => false end.

Definition body_ok (check : dict -> bool) (data : pyval) : bool :=
  match data with PDict d => check d | _ => false end.

(** Requests within the types the handlers expect: bodies are objects,
    passwords are text, items are lists of objects, ids are twenty-four
    hexadecimal digits. *)
Definition well_formed (r : request) : bool :=
  match r with
  | POST_register data =>
      body_ok (fun d => text_or_absent (body_field d "password")) data
  | POST_login data =>
      body_ok (fun d => text_or_absent (body_field d "password")) data
  | POST_stock _ data => is_dict data
  | POST_orders data =>
      body_ok (fun d => items_or_absent (body_field d "items")) data
  | POST_request_cancellation order_id => is_oid order_id
  | PUT_admin_order_status order_id data => is_oid order_id && is_dict data
  | POST_cart data => is_dict data
  | DELETE_admin_user user_id => is_oid user_id
  | PUT_admin_credentials data =>
      body_ok (fun d => text_or_absent (body_field d "new_password")) data
  | GET_products | GET_orders _ | GET_admin_orders | GET_cart _
  | GET_admin_users => true
  end.

(** A response of the documented kinds: a success, or [{error: message}]
    with a status of the taxonomy. *)
Definition documented (resp : response) : bool :=
  let code := snd resp in
  Z.eqb code 200 || Z.eqb code 201 ||
  match fst resp with
  | PDict [(k, PStr _)] =>
      String.eqb k "error" &&
      (Z.eqb code 400 || Z.eqb code 401 || Z.eqb code 404 || Z.eqb code 500)
  | _ => false
  end.

(** The handler returns a documented response. *)
Definition answers (m : M response) (w : world) : Prop :=
  exists resp, fst (m w) = Return resp /\ documented resp = true.

(** The order with a given id, and whether its cancellation was
    requested. *)
Definition lookup (o : oid) (l : list doc) : option doc :=
  find (matches (q_id o)) l.

Definition requested (d : doc) : bool :=
  match dict_get "cancellationRequested" (doc_fields d) with
  | Some (PBool true) => true
  | _ => false
  end.

(** What the store guarantees of order ids: no two orders share one, and
    all were handed out already. *)
Definition ids_ok (w : world) : Prop :=
  NoDup (map doc_id (orders w)) /\
  Forall (fun d => (doc_id d < next_oid w)%N) (orders w).

(** [w] is a later state of [w0] in which no order of [w0] lost its
    cancellation request. *)
Definition never_unrequested (w0 w : world) : Prop :=
  ids_ok w0 /\ ids_ok w /\ (next_oid w0 <= next_oid w)%N /\
  forall o d,
    lookup o (orders w) = Some d ->
    match lookup o (orders w0) with
    | Some d0 => requested d0 = true -> requested d = true
    | None => (next_oid w0 <= o)%N
    end.

(** Requests whose handlers only read the store. *)
Definition read_only (r : request) : bool :=
  match r with
  | POST_login _ | GET_products | GET_orders _ | GET_admin_orders
  | GET_cart _ | GET_admin_users => true
  | _ => false
  end.

(** ** Values the store takes as they are *)

(** The integers BSON encodes. *)
Definition int64 (n : Z) : bool :=
  (- 2 ^ 63 <=? n)%Z && (n <? 2 ^ 63)%Z.

(** A field name that is neither an operator nor a path. *)
Definition plain_key (k : string) : bool :=
  match k with
  | EmptyString => false
  | String c _ =>
      negb (Ascii.eqb c "$")
      && forallb (fun x => negb (Ascii.eqb x ".") && negb (Ascii.eqb x zero))
                 (list_ascii_of_string k)
  end.

(** A value the store encodes and compares as it is: its integers fit in
    64 bits and no object in it has a key that starts with a dollar sign or
    holds a dot. *)
Fixpoint encodable (v : pyval) : bool :=
  match v with
  | PNone | PBool _ | PStr _ => true
  | PInt n => int64 n
  | PList l =>
      (fix all (l : list pyval) : bool :=
         match l with
         | [] => true
         | x :: l' => encodable x && all l'
         end) l
  | PDict d =>
      (fix all (d : list (string * pyval)) : bool :=
         match d with
         | [] => true
         | (k, x) :: d' => plain_key k && encodable x && all d'
         end) d
  end.

(** A bound on the bytes of the BSON encoding of a value: sixteen for each
    node and each entry, and the characters of its strings and keys. *)
Fixpoint weight (v : pyval) : N :=
  match v with
  | PNone | PBool _ | PInt _ => 16
  | PStr s => 16 + N.of_nat (String.length s)
  | PList l =>
      (fix sum (l : list pyval) : N :=
         match l with
         | [] => 16
         | x :: l' => 16 + weight x + sum l'
         end) l
  | PDict d =>
      (fix sum (d : list (string * pyval)) : N :=
         match d with
         | [] => 16
         | (k, x) :: d' => 16 + N.of_nat (String.length k) + weight x + sum d'
         end) d
  end%N.

(** How deep lists and objects are nested in a value. *)
Fixpoint depth (v : pyval) : nat :=
  match v with
  | PNone | PBool _ | PInt _ | PStr _ => 0
  | PList l =>
      S ((fix deepest (l : list pyval) : nat :=
            match l with
            | [] => 0
            | x :: l' => Nat.max (depth x) (deepest l')
            end) l)
  | PDict d =>
      S ((fix deepest (d : list (string * pyval)) : nat :=
            match d with
            | [] => 0
            | (_, x) :: d' => Nat.max (depth x) (deepest d')
            end) d)
  end.

(** A value the store takes as it is: [encodable], and well within the
    size (16 MB) and the nesting (100 levels) of a stored document. *)
Definition plain (v : pyval) : bool :=
  encodable v && (weight v <? 65536)%N && Nat.ltb (depth v) 32.

(** The images of the products are short enough for an order that copies
    one of them into each of its items to stay within the size of a stored
    document. *)
Definition images_light (w : world) : bool :=
  forallb (fun d => (weight (body_field (doc_fields d) "image") <? 4096)%N)
          (products w).

(** The fields of an order body that reach the store are plain; the items,
    and with them the ids looked up in the products, are among them. *)
Definition order_body_plain (data : pyval) : bool :=
  match data with
  | PDict d =>
      forallb (fun k => plain (body_field d k))
              ["user_email"; "items"; "city"; "pincode"; "total_price"]
  | _ => true
  end.

(** ** Reading the ISO form back *)






(** ** Ids that are surely refused *)

Definition is_hex (c : ascii) : bool :=
  match hex_digit c with Some _ => true | None => false end.

(** ASCII white space, which [bytes.fromhex] skips. *)
Definition is_space (c : ascii) : bool :=
  let n := N_of_ascii c in
  (n =? 32)%N || ((9 <=? n)%N && (n <=? 13)%N).

(** Not twenty-four characters long, or holding a character that is
    neither a hexadecimal digit nor white space. *)
Definition surely_not_an_id (s : string) : bool :=
  negb (Nat.eqb (String.length s) 24)
  || existsb (fun c => negb (is_hex c || is_space c))
             (list_ascii_of_string s).

(** ** Requests within the types of the specification *)

(** Requests whose values are of the types the specification gives them and
    plain for the store: bodies are objects, emails and passwords are plain
    text or absent, the other stored fields are plain, items are a list of
    objects, path ids are twenty-four hexadecimal digits and product ids fit
    in 64 bits. *)
Definition text (v : pyval) : bool := text_or_absent v && plain v.

Definition typed (r : request) : bool :=
  match r with
  | POST_register data =>
      body_ok (fun d => plain (body_field d "name")
                        && text (body_field d "email")
                        && text (body_field d "password")) data
  | POST_login data =>
      body_ok (fun d => text (body_field d "email")
                        && text (body_field d "password")) data
  | POST_stock product_id data =>
      int64 product_id
      && body_ok (fun d => plain (body_field d "stock")) data
  | POST_orders data =>
      body_ok (fun d => items_or_absent (body_field d "items")) data
      && order_body_plain data
  | POST_request_cancellation order_id => is_oid order_id
  | PUT_admin_order_status order_id data =>
      is_oid order_id
      && body_ok (fun d => plain (body_field d "status")) data
  | POST_cart data =>
      body_ok (fun d => plain (body_field d "user_email")
                        && plain (body_field d "items")) data
  | DELETE_admin_user user_id => is_oid user_id
  | PUT_admin_credentials data =>
      body_ok (fun d => text (body_field d "current_email")
                        && text (body_field d "new_email")
                        && text (body_field d "new_password")) data
  | GET_products | GET_orders _ | GET_admin_orders | GET_cart _
  | GET_admin_users => true
  end.

(** The request is a stock update that gets as far as the broadcast. *)
Definition reaches_broadcast (r : request) (w : world) : bool :=
  match r with
  | POST_stock product_id (PDict d) =>
      negb (is_None (body_field d "stock"))
      && match find (matches (q_field "id" (PInt product_id))) (products w)
         with
         | Some _ => true
         | None => false
         end
  | _ => false
  end.

(** A stored password hash that the hashing library wrote. *)
Definition hash_made {hasher : PasswordHasher} (h : string) : Prop :=
  exists salt password, h = hash_with salt password.

(** A store whose users the handlers can process: each has a name, a
    password hash the library wrote, and a plain email. *)
Definition users_sound {hasher : PasswordHasher} (w : world) : Prop :=
  users_ok w = true /\
  forall u, In u (users w) ->
            (forall h, dict_get "password" (doc_fields u) = Some (PStr h) ->
                       hash_made h) /\
            plain (body_field (doc_fields u) "email") = true.

(** Requests whose handler writes at most once, as its last call to a
    library. *)
Definition writes_last (r : request) : bool :=
  match r with
  | POST_stock _ _ | DELETE_admin_user _ => false
  | _ => true
  end.

(** The same product, up to its stock. *)
Definition same_but_stock (d d' : doc) : Prop :=
  doc_id d' = doc_id d /\
  forall k, k <> "stock" ->
            dict_get k (doc_fields d') = dict_get k (doc_fields d).

(** The broadcast log of [w] extends that of [w0] by stock updates only. *)
Definition only_stock_updates_since (w0 w : world) : Prop :=
  exists l,
    emitted w = emitted w0 ++ l /\
    Forall (fun ev => event_name ev = "stock_update") l.

(** Every email string finds at most one user. *)
Definition emails_unique (w : world) : Prop :=
  forall e : string,
    List.length (filter (matches (q_field "email" (PStr e))) (users w)) <= 1.

(** [raises_cleanly m]: when [m] raises, it has written nothing. *)
Definition raises_cleanly {A} (m : M A) : Prop :=
  forall w e, fst (m w) = Raise e -> snd (m w) = w.

(** [returns m]: [m] never raises. *)
Definition returns {A} (m : M A) : Prop :=
  forall w, exists a w', m w = (Return a, w').

(** [w] is a later state of [w0] in which every order of [w0] that is still
    stored is related to its former self by [R]. *)
Definition orders_evolve (R : doc -> doc -> Prop) (w0 w : world) : Prop :=
  ids_ok w0 /\ ids_ok w /\ (next_oid w0 <= next_oid w)%N /\
  forall o d,
    lookup o (orders w) = Some d ->
    match lookup o (orders w0) with
    | Some d0 => R d0 d
    | None => (next_oid w0 <= o)%N
    end.

(** The same order, up to its status and its cancellation flag. *)
Definition same_order_contents (d0 d : doc) : Prop :=
  forall k, k <> "status" -> k <> "cancellationRequested" ->
            dict_get k (doc_fields d) = dict_get k (doc_fields d0).

(** Every email string finds at most one cart. *)
Definition carts_unique (w : world) : Prop :=
  forall e : string,
    List.length (filter (matches (q_field "user_email" (PStr e))) (carts w))
    <= 1.

(** [never_answers a m]: [m] never returns [a]. *)
Definition never_answers {A} (a : A) (m : M A) : Prop :=
  forall w, fst (m w) <> Return a.

(** An induction principle that reaches the values nested in lists and
    dicts. *)
Section PyvalInduction.

Variable P : pyval -> Prop.
Hypothesis HNone : P PNone.
Hypothesis HBool : forall b, P (PBool b).
Hypothesis HInt : forall n, P (PInt n).
Hypothesis HStr : forall s, P (PStr s).
Hypothesis HList : forall l, Forall P l -> P (PList l).
Hypothesis HDict : forall d, Forall (fun kv => P (snd kv)) d -> P (PDict d).

Fixpoint pyval_ind (v : pyval) : P v :=
  match v with
  | PNone => HNone
  | PBool b => HBool b
  | PInt n => HInt n
  | PStr s => HStr s
  | PList l =>
      HList l
        ((fix all (l : list pyval) : Forall P l :=
            match l with
            | [] => Forall_nil P
            | x :: l' => Forall_cons x (pyval_ind x) (all l')
            end) l)
  | PDict d =>
      HDict d
        ((fix all (d : list (string * pyval))
            : Forall (fun kv => P (snd kv)) d :=
            match d with
            | [] => Forall_nil _
            | kv :: d' => Forall_cons kv (pyval_ind (snd kv)) (all d')
            end) d)
  end.

End PyvalInduction.

(** ** A sample store *)

(** A stand-in for werkzeug's hashing, used to run the handlers on
    examples. *)
Definition sample_hasher : PasswordHasher :=
  {| salt_of := fun n => str_oid n;
     hash_with := fun salt password =>
       ("toy$" ++ salt ++ "$" ++ password ++ salt)%string;
     check_hash := fun stored password =>
       String.eqb stored
         ("toy$" ++ substring 4 24 stored ++ "$" ++ password
            ++ substring 4 24 stored)%string |}.

Definition sample_clock : datetime :=
  mk_datetime 2024 1 2 3 4 5 0.

Definition sample_user : doc :=
  mk_doc 1%N [("name", PStr "Ann"); ("email", PStr "ann@example.com");
            ("password",
             PStr "toy$000000000000000000000000$secret000000000000000000000000")].

Definition sample_product : doc :=
  mk_doc 2%N [("id", PInt 42); ("name", PStr "Mug"); ("price", PInt 9);
            ("stock", PInt 5); ("image", PStr "img.png")].

Definition sample_order : doc :=
  mk_doc 3%N [("user_email", PStr "ann@example.com");
            ("items", PList [PDict [("id", PInt 42); ("quantity", PInt 2);
                                    ("image", PStr "img.png")]]);
            ("city", PStr "Pune"); ("pincode", PStr "411001");
            ("total_price", PInt 18); ("status", PStr "Shipped");
            ("order_date", PStr "2024-01-01T10:00:00");
            ("cancellationRequested", PBool true)].

Definition sample_cart : doc :=
  mk_doc 4%N [("user_email", PStr "ann@example.com");
            ("items", PList [PDict [("id", PInt 42); ("quantity", PInt 1)]])].

Definition sample_world : world :=
  mk_world [sample_user] [sample_product] [sample_order] [sample_cart]
           16%N [] sample_clock 1.

(** A status update, a new order, a cancellation request and the deletion
    of an unknown user. *)
Definition sample_requests : list request :=
  [PUT_admin_order_status "000000000000000000000003"
     (PDict [("status", PStr "Delivered")]);
   POST_orders
     (PDict [("user_email", PStr "ann@example.com");
             ("items", PList [PDict [("id", PInt 42)]]);
             ("city", PStr "Pune"); ("pincode", PStr "411001");
             ("total_price", PInt 9)]);
   POST_request_cancellation "000000000000000000000003";
   DELETE_admin_user "000000000000000000000009"].

(** An order placed by a user without an account. *)
Definition sample_order_body : dict :=
  [("user_email", PStr "bob@example.com");
   ("items", PList [PDict [("id", PInt 42)]]);
   ("city", PStr "Pune"); ("pincode", PStr "411001");
   ("total_price", PInt 9)].

Definition sample_order_request : pyval := PDict sample_order_body.

Definition empty_world : world :=
  mk_world [] [] [] [] 0%N [] sample_clock 0.

(** * Properties *)

(** ** Runs on the sample store *)

Example isoformat_seconds : isoformat sample_clock = "2024-01-02T03:04:05".
Proof. reflexivity. Qed.

Example isoformat_microseconds :
  isoformat (mk_datetime 2024 12 31 23 59 59 1200)
  = "2024-12-31T23:59:59.001200".
Proof. reflexivity. Qed.

Example ObjectId_lower_and_upper :
  parse_oid "0000000000000000000000ff" = Some 255%N /\
  parse_oid "0000000000000000000000FF" = Some 255%N /\
  str_oid 255%N = "0000000000000000000000ff".
Proof. repeat split. Qed.

Example ObjectId_rejects :
  parse_oid "ff" = None /\ parse_oid "00000000000000000000000g" = None.
Proof. split; reflexivity. Qed.

Example register_then_login :
  let body := PDict [("name", PStr "Bob"); ("email", PStr "bob@example.com");
                     ("password", PStr "hunter2")] in
  fst (login (hasher := sample_hasher) body
             (snd (register (hasher := sample_hasher) body empty_world)))
  = Return (PDict [("message", PStr "Login successful");
                   ("name", PStr "Bob")], 200%Z).
Proof. reflexivity. Qed.

Example null_body_raises :
  fst (save_cart PNone sample_world) = Raise AttributeError.
Proof. reflexivity. Qed.

Example chat_message_is_relayed :
  emitted (snd (handle_chat_message (PDict [("message", PStr "hi")])
                                    empty_world))
  = [mk_event "chat_message" (PDict [("message", PStr "hi")])] /\
  emitted (snd (handle_chat_message (PDict [("message", PStr "")])
                                    empty_world)) = [].
Proof. split; reflexivity. Qed.

(** ** Values and dicts *)

Lemma pyval_eqb_refl (v : pyval) : pyval_eqb v v = true.
Proof.
  induction v using pyval_ind; simpl.
  - reflexivity.
  - apply Bool.eqb_reflx.
  - apply Z.eqb_refl.
  - apply String.eqb_refl.
  - induction H as [|x l Hx _ IH]; [reflexivity|].
    now rewrite Hx, IH.
  - induction H as [|[k x] d Hx _ IH]; [reflexivity|].
    simpl in Hx. now rewrite String.eqb_refl, Hx, IH.
Qed.

Lemma pyval_eqb_eq (a b : pyval) : pyval_eqb a b = true <-> a = b.
Proof.
  split; [|intros <-; apply pyval_eqb_refl].
  revert b.
  induction a using pyval_ind; intros [] E; simpl in E; try discriminate.
  - reflexivity.
  - now apply Bool.eqb_prop in E; subst.
  - now apply Z.eqb_eq in E; subst.
  - now apply String.eqb_eq in E; subst.
  - f_equal. revert l0 E.
    induction H as [|x l Hx _ IH]; intros [|y l0] E; try discriminate.
    + reflexivity.
    + apply andb_true_iff in E as [E1 E2].
      f_equal; [now apply Hx | now apply IH].
  - f_equal. revert d0 E.
    induction H as [|[k x] d Hx _ IH]; intros [|[k' y] d0] E;
      try discriminate.
    + reflexivity.
    + apply andb_true_iff in E as [E12 E3].
      apply andb_true_iff in E12 as [E1 E2].
      apply String.eqb_eq in E1. simpl in Hx.
      f_equal; [f_equal; [assumption | now apply Hx] | now apply IH].
Qed.

Lemma dict_get_set_same (k : string) (v : pyval) (d : dict) :
  dict_get k (dict_set k v d) = Some v.
Proof.
  induction d as [|[k' v'] d IH]; simpl.
  - now rewrite String.eqb_refl.
  - destruct (String.eqb k k') eqn:E; simpl; rewrite E; auto.
Qed.

Lemma dict_get_set_other (k k' : string) (v : pyval) (d : dict) :
  k <> k' -> dict_get k (dict_set k' v d) = dict_get k d.
Proof.
  intros Hne.
  induction d as [|[k0 v0] d IH]; simpl.
  - destruct (String.eqb k k') eqn:E; [|reflexivity].
    now apply String.eqb_eq in E.
  - destruct (String.eqb k' k0) eqn:E; simpl.
    + apply String.eqb_eq in E; subst k0.
      destruct (String.eqb k k') eqn:E'; [|reflexivity].
      now apply String.eqb_eq in E'.
    + now rewrite IH.
Qed.


Lemma dict_get_only (k : string) (ks : list string) (d : dict) :
  In k ks -> dict_get k (dict_only ks d) = dict_get k d.
Proof.
  intros Hin.
  induction d as [|[k' v'] d IH]; simpl; [reflexivity|].
  destruct (existsb (String.eqb k') ks) eqn:E; simpl.
  - now rewrite IH.
  - destruct (String.eqb k k') eqn:E'; [|assumption].
    apply String.eqb_eq in E'; subst k'.
    assert (existsb (String.eqb k) ks = true) as E''.
    { apply existsb_exists. exists k. split; [assumption|].
      apply String.eqb_refl. }
    congruence.
Qed.

Lemma field_matches_same (v : pyval) : field_matches v (Some v) = true.
Proof. unfold field_matches. now rewrite pyval_eqb_refl. Qed.

(** ** Lists of documents *)

Lemma find_split (p : doc -> bool) (l : list doc) (d : doc) :
  find p l = Some d ->
  exists before after,
    l = before ++ d :: after /\
    (forall x, In x before -> p x = false) /\ p d = true.
Proof.
  induction l as [|x l IH]; simpl; [discriminate|].
  destruct (p x) eqn:E.
  - intros [= ->]. exists [], l. repeat split; auto. intros ? [].
  - intros H. destruct (IH H) as (b & a & -> & Hb & Hd).
    exists (x :: b), a. repeat split; auto.
    intros y [<-|Hy]; auto.
Qed.

Lemma find_app_skip (p : doc -> bool) (before rest : list doc) :
  (forall x, In x before -> p x = false) ->
  find p (before ++ rest) = find p rest.
Proof.
  induction before as [|x b IH]; simpl; intros H; [reflexivity|].
  rewrite (H x) by auto. apply IH. auto.
Qed.

Lemma find_none_all (p : doc -> bool) (l : list doc) :
  find p l = None -> forall x, In x l -> p x = false.
Proof. intros H x Hx. exact (find_none p l H x Hx). Qed.

Lemma update_first_split (p : doc -> bool) (f : doc -> doc)
      (before after : list doc) (d : doc) :
  (forall x, In x before -> p x = false) -> p d = true ->
  update_first p f (before ++ d :: after) = Some (before ++ f d :: after).
Proof.
  induction before as [|x b IH]; simpl; intros Hb Hd.
  - now rewrite Hd.
  - rewrite (Hb x) by auto. rewrite IH; auto.
Qed.

Lemma filter_q_all (l : list doc) : filter (matches q_all) l = l.
Proof.
  induction l as [|x l IH]; simpl; [reflexivity|]. now rewrite IH.
Qed.

(** ** Running computations *)

Lemma bind_return {A B} (m : M A) (k : A -> M B) (w w' : world) (a : A) :
  m w = (Return a, w') -> bind m k w = k a w'.
Proof. unfold bind. now intros ->. Qed.

Lemma bind_raise {A B} (m : M A) (k : A -> M B) (w w' : world) (e : exn) :
  m w = (Raise e, w') -> bind m k w = (Raise e, w').
Proof. unfold bind. now intros ->. Qed.

Lemma py_get_dict (d : dict) (k : string) (w : world) :
  py_get (PDict d) k w = (Return (body_field d k), w).
Proof. reflexivity. Qed.

Lemma find_one_run (c : collection) (q : query) (w : world) :
  find_one c q w = (Return (find (matches q) (coll c w)), w).
Proof. reflexivity. Qed.

Lemma find_all_run (c : collection) (q : query) (w : world) :
  find_all c q w = (Return (filter (matches q) (coll c w)), w).
Proof. reflexivity. Qed.

Lemma insert_one_run (c : collection) (fields : dict) (w : world) :
  insert_one c fields w
  = (Return (next_oid w),
     set_coll c (coll c w ++ [mk_doc (next_oid w) fields])
              (set_next_oid (N.succ (next_oid w)) w)).
Proof. now destruct c. Qed.

Lemma update_one_found (c : collection) (q : query) (sets : dict)
      (upsert : bool) (w : world) (d : doc) (before after : list doc) :
  coll c w = before ++ d :: after ->
  (forall x, In x before -> matches q x = false) ->
  matches q d = true ->
  exists modified,
    update_one c q sets upsert w
    = (Return (mk_update_result 1 modified),
       set_coll c (before ++ set_fields sets d :: after) w).
Proof.
  intros Hl Hb Hd.
  unfold update_one.
  assert (find (matches q) (coll c w) = Some d) as Hfind.
  { rewrite Hl, find_app_skip by assumption. simpl. now rewrite Hd. }
  rewrite (bind_return _ _ _ _ _ (find_one_run c q w)), Hfind.
  eexists. unfold bind, write, ret.
  rewrite Hl, update_first_split by assumption. reflexivity.
Qed.

Lemma update_one_missing (c : collection) (q : query) (sets : dict)
      (w : world) :
  find (matches q) (coll c w) = None ->
  update_one c q sets false w = (Return (mk_update_result 0 0), w).
Proof.
  intros Hfind. unfold update_one.
  now rewrite (bind_return _ _ _ _ _ (find_one_run c q w)), Hfind.
Qed.

Lemma update_one_upsert (c : collection) (q : query) (sets : dict)
      (w : world) :
  find (matches q) (coll c w) = None ->
  update_one c q sets true w
  = (Return (mk_update_result 0 0),
     set_coll c (coll c w
                   ++ [mk_doc (next_oid w) (apply_set sets (query_fields q))])
              (set_next_oid (N.succ (next_oid w)) w)).
Proof.
  intros Hfind. unfold update_one.
  rewrite (bind_return _ _ _ _ _ (find_one_run c q w)), Hfind.
  now rewrite (bind_return _ _ _ _ _ (insert_one_run c _ w)).
Qed.

Lemma dict_get_as_dict (u : doc) (k : string) :
  String.eqb k "_id" = false ->
  dict_get k (as_dict u) = dict_get k (doc_fields u).
Proof. unfold as_dict. cbn [dict_get]. now intros ->. Qed.

Lemma py_getitem_some (d : dict) (k : string) (x : pyval) (w : world) :
  dict_get k d = Some x -> py_getitem d k w = (Return x, w).
Proof. unfold py_getitem. now intros ->. Qed.

Lemma ObjectId_valid (s : string) (o : oid) (w : world) :
  parse_oid s = Some o -> ObjectId s w = (Return o, w).
Proof. unfold ObjectId. now intros ->. Qed.

Lemma ObjectId_invalid (s : string) (w : world) :
  parse_oid s = None -> ObjectId s w = (Raise InvalidId, w).
Proof. unfold ObjectId. now intros ->. Qed.

(** ** Catalog: stock updates *)


Lemma is_None_false (v : pyval) : v <> PNone -> is_None v = false.
Proof. destruct v; simpl; congruence. Qed.

(** ** Cart *)

Lemma truthy_str (e : string) : e <> "" -> truthy (PStr e) = true.
Proof.
  intros He. simpl. destruct (String.eqb e "") eqn:E; [|reflexivity].
  now apply String.eqb_eq in E.
Qed.



(** ** Admin: deleting a user *)

Lemma delete_one_found (c : collection) (q : query) (w : world) (d : doc) :
  find (matches q) (coll c w) = Some d ->
  delete_one c q w
  = (Return 1, set_coll c (remove_first (matches q) (coll c w)) w).
Proof.
  intros Hfind. unfold delete_one.
  now rewrite (bind_return _ _ _ _ _ (find_one_run c q w)), Hfind.
Qed.

Lemma delete_many_run (c : collection) (q : query) (w : world) :
  delete_many c q w
  = (Return (List.length (filter (matches q) (coll c w))),
     set_coll c (filter (fun d => negb (matches q d)) (coll c w)) w).
Proof. reflexivity. Qed.

(** The three ways [admin_delete_user] ends. *)
Lemma admin_delete_user_run (w : world) (user_id : string) :
  admin_delete_user user_id w
  = match parse_oid user_id with
    | None => (Raise InvalidId, w)
    | Some o =>
        match find (matches (q_id o)) (users w) with
        | None => (Return (error_body "User not found", 404%Z), w)
        | Some u =>
            (Return (message_body "User and their orders removed successfully",
                     200%Z),
             set_coll orders_collection
               (filter (fun d =>
                          negb (matches (q_field "user_email"
                                           (body_field (doc_fields u) "email"))
                                        d))
                       (orders w))
               (set_coll users_collection
                  (remove_first (matches (q_id o)) (users w)) w))
        end
    end.
Proof.
  unfold admin_delete_user.
  destruct (parse_oid user_id) as [o|] eqn:Hparse.
  - rewrite (bind_return _ _ _ _ _ (ObjectId_valid _ _ w Hparse)).
    rewrite (bind_return _ _ _ _ _ (find_one_run _ _ _)). cbn [coll].
    destruct (find (matches (q_id o)) (users w)) as [u|] eqn:Hfind;
      [|reflexivity].
    cbn [found as_dict truthy negb].
    rewrite (bind_return _ _ _ _ _ (py_get_dict _ _ _)).
    rewrite (bind_return _ _ _ _ _ (ObjectId_valid _ _ w Hparse)).
    rewrite (bind_return _ _ _ _ _
               (delete_one_found users_collection (q_id o) w u Hfind)).
    cbn [Nat.eqb].
    rewrite (bind_return _ _ _ _ _ (delete_many_run _ _ _)).
    reflexivity.
  - now rewrite (bind_raise _ _ _ _ _ (ObjectId_invalid _ w Hparse)).
Qed.

Lemma listed_order_email (d : doc) :
  dict_get "user_email"
    (("_id", PStr (str_oid (doc_id d)))
       :: dict_only admin_order_fields (doc_fields d))
  = dict_get "user_email" (doc_fields d).
Proof.
  cbn [dict_get]. change (String.eqb "user_email" "_id") with false.
  apply dict_get_only. unfold admin_order_fields. simpl. auto.
Qed.

(** C10. [admin_delete_user] never touches the products or the carts; after
    a successful delete every cart reads as before, and a cart saved under
    the deleted user's email is still in the store and still returned by
    [get_cart] for that email. *)
Theorem admin_delete_user_keeps_carts
        (w : world) (user_id : string) (o : oid) (u : doc) :
  parse_oid user_id = Some o ->
  find (matches (q_id o)) (users w) = Some u ->
  exists w',
    admin_delete_user user_id w
    = (Return (message_body "User and their orders removed successfully",
               200%Z), w') /\
    products w' = products w /\
    carts w' = carts w /\
    (forall e, get_cart e w' = (fst (get_cart e w), w')) /\
    (forall e c,
        body_field (doc_fields u) "email" = PStr e ->
        find (matches (q_field "user_email" (PStr e))) (carts w) = Some c ->
        find (matches (q_field "user_email" (PStr e))) (carts w') = Some c /\
        get_cart e w'
        = (Return (match dict_get "items" (doc_fields c) with
                   | Some items => items
                   | None => PList []
                   end, 200%Z), w')).
Proof.
  intros Hparse Hfind. rewrite admin_delete_user_run, Hparse, Hfind.
  eexists. split; [reflexivity|].
  cbn [products carts set_coll].
  split; [reflexivity|]. split; [reflexivity|].
  assert (forall e w1 w2, carts w1 = carts w2 ->
                          get_cart e w1 = (fst (get_cart e w2), w1)) as Hread.
  { intros e w1 w2 Hc. unfold get_cart.
    rewrite !(bind_return _ _ _ _ _ (find_one_run _ _ _)).
    cbn [coll]. rewrite Hc.
    destruct (find _ (carts w2)) as [c|]; [|reflexivity].
    destruct (truthy _); reflexivity. }
  split.
  - intros e. now apply Hread.
  - intros e c _ Hcart. split; [exact Hcart|].
    rewrite (Hread e _ w) by reflexivity. f_equal.
    unfold get_cart.
    rewrite (bind_return _ _ _ _ _ (find_one_run _ _ _)).
    cbn [coll]. rewrite Hcart.
    destruct (find_split _ _ _ Hcart) as (_ & _ & _ & _ & Hm).
    cbn [matches] in Hm.
    destruct (doc_fields c) as [|kv fields] eqn:Hf; [discriminate|].
    reflexivity.
Qed.

Lemma admin_delete_user_keeps_carts_witness :
  exists w',
    admin_delete_user "000000000000000000000001" sample_world
    = (Return (message_body "User and their orders removed successfully",
               200%Z), w') /\
    carts w' = [sample_cart] /\
    get_cart "ann@example.com" w'
    = (Return (PList [PDict [("id", PInt 42); ("quantity", PInt 1)]], 200%Z),
       w').
Proof.
  destruct (admin_delete_user_keeps_carts
              sample_world "000000000000000000000001" 1%N sample_user
              eq_refl eq_refl)
    as (w' & Hrun & _ & Hc & _ & Hcart).
  exists w'. split; [exact Hrun|]. split; [exact Hc|].
  exact (proj2 (Hcart "ann@example.com" sample_cart eq_refl eq_refl)).
Defined.

(** ** Accounts *)

Section Accounts.

Context {hasher : PasswordHasher}.

Lemma generate_password_hash_str (p : string) (w : world) :
  generate_password_hash (PStr p) w
  = (Return (hash_with (salt_of (entropy w)) p),
     set_entropy (N.succ (entropy w)) w).
Proof. reflexivity. Qed.



End Accounts.


(** ** Orders: creation *)

Lemma truthy_false_iff (v : pyval) : truthy v = false <-> falsy v.
Proof.
  unfold falsy. split.
  - destruct v as [|b|n|s|l|d]; simpl; intros H.
    + auto.
    + subst b. auto.
    + apply negb_false_iff, Z.eqb_eq in H. subst n. auto.
    + apply negb_false_iff, String.eqb_eq in H. subst s. auto 6.
    + destruct l; [auto 6 | discriminate].
    + destruct d; [auto 7 | discriminate].
  - intros [->|[->|[->|[->|[->| ->]]]]]; reflexivity.
Qed.

Lemma enrich_item_dict (item : dict) (w : world) :
  enrich_item (PDict item) w = (Return (with_image (products w) item), w).
Proof.
  unfold enrich_item, with_image, image_for.
  rewrite (bind_return _ _ _ _ _ (py_get_dict item "id" w)).
  rewrite (bind_return _ _ _ _ _ (find_one_run _ _ _)). cbn [coll].
  destruct (find _ (products w)) as [p|]; [|reflexivity].
  change (found (Some p)) with true. cbn [andb].
  unfold dict_has. rewrite (dict_get_as_dict p "image" eq_refl).
  destruct (dict_get "image" (doc_fields p)) as [image|] eqn:Himage;
    [|reflexivity].
  rewrite <- (dict_get_as_dict p "image" eq_refl) in Himage.
  now rewrite (bind_return _ _ _ _ _ (py_getitem_some _ _ _ w Himage)).
Qed.

Lemma enrich_items_dicts (items : list dict) (acc : list pyval) (w : world) :
  enrich_items (map PDict items) acc w
  = (Return (acc ++ map (with_image (products w)) items), w).
Proof.
  revert acc. induction items as [|item items IH]; intros acc; cbn [map].
  - cbn [enrich_items]. now rewrite app_nil_r.
  - cbn [enrich_items].
    rewrite (bind_return _ _ _ _ _ (enrich_item_dict item w)).
    rewrite IH, <- app_assoc. reflexivity.
Qed.

(** The loop only reads the store, however it ends. *)
Lemma enrich_items_reads (l acc : list pyval) (w : world) :
  snd (enrich_items l acc w) = w.
Proof.
  revert acc. induction l as [|v l IH]; intros acc; cbn [enrich_items].
  - reflexivity.
  - destruct v as [| | | | |item];
      try (rewrite (bind_raise _ _ w w AttributeError) by reflexivity;
           reflexivity).
    rewrite (bind_return _ _ _ _ _ (enrich_item_dict item w)). apply IH.
Qed.

Lemma enrich_items_returns (l acc r : list pyval) (w w' : world) :
  enrich_items l acc w = (Return r, w') ->
  exists items, l = map PDict items.
Proof.
  revert acc. induction l as [|v l IH]; intros acc; cbn [enrich_items].
  - intros _. now exists [].
  - destruct v as [| | | | |item];
      try (rewrite (bind_raise _ _ w w AttributeError) by reflexivity;
           discriminate).
    rewrite (bind_return _ _ _ _ _ (enrich_item_dict item w)).
    intros H. destruct (IH _ H) as (items & ->). now exists (item :: items).
Qed.

Lemma create_order_run (data : dict) (w : world) :
  create_order (PDict data) w
  = if order_rejected data then
      (Return (error_body "Missing required order fields", 400%Z), w)
    else
      match py_iter (body_field data "items") w with
      | (Return elements, _) =>
          match enrich_items elements [] w with
          | (Return enriched, _) =>
              (Return (message_body "Order placed successfully", 201%Z),
               set_coll orders_collection
                 (orders w
                    ++ [mk_doc (next_oid w)
                          [("user_email", body_field data "user_email");
                           ("items", PList enriched);
                           ("city", body_field data "city");
                           ("pincode", body_field data "pincode");
                           ("total_price", body_field data "total_price");
                           ("status", PStr "Pending");
                           ("order_date", PStr (isoformat (clock w)));
                           ("cancellationRequested", PBool false)]])
                 (set_next_oid (N.succ (next_oid w)) w))
          | (Raise e, _) => (Raise e, w)
          end
      | (Raise e, _) => (Raise e, w)
      end.
Proof.
  unfold create_order.
  rewrite (bind_return _ _ _ _ _ (py_get_dict data "user_email" w)).
  rewrite (bind_return _ _ _ _ _ (py_get_dict data "items" w)).
  rewrite (bind_return _ _ _ _ _ (py_get_dict data "city" w)).
  rewrite (bind_return _ _ _ _ _ (py_get_dict data "pincode" w)).
  rewrite (bind_return _ _ _ _ _ (py_get_dict data "total_price" w)).
  fold (order_rejected data).
  destruct (order_rejected data); [reflexivity|].
  assert (forall v, snd (py_iter v w) = w) as Hiter by (now intros []).
  destruct (py_iter (body_field data "items") w) as [[elements|e] w1] eqn:Hi.
  - specialize (Hiter (body_field data "items")). rewrite Hi in Hiter.
    cbn [snd] in Hiter. subst w1.
    rewrite (bind_return _ _ _ _ _ Hi).
    pose proof (enrich_items_reads elements [] w) as Hw.
    destruct (enrich_items elements [] w) as [[enriched|e] w1] eqn:He;
      cbn [snd] in Hw; subst w1.
    + rewrite (bind_return _ _ _ _ _ He).
      unfold utcnow.
      rewrite (bind_return _ _ w w (clock w)) by reflexivity.
      now rewrite (bind_return _ _ _ _ _ (insert_one_run _ _ _)).
    + now rewrite (bind_raise _ _ _ _ _ He).
  - specialize (Hiter (body_field data "items")). rewrite Hi in Hiter.
    cbn [snd] in Hiter. subst w1.
    now rewrite (bind_raise _ _ _ _ _ Hi).
Qed.

Lemma order_rejected_iff (data : dict) :
  order_rejected data = true <->
  (falsy (body_field data "user_email") \/ falsy (body_field data "items") \/
   falsy (body_field data "city") \/ falsy (body_field data "pincode") \/
   body_field data "total_price" = PNone).
Proof.
  unfold order_rejected.
  rewrite !orb_true_iff, !negb_true_iff, !truthy_false_iff.
  assert (forall v, is_None v = true <-> v = PNone) as HN.
  { intros v. destruct v; simpl; split; congruence. }
  rewrite HN. tauto.
Qed.

Lemma order_accepted_items (data : dict) :
  order_rejected data = false -> truthy (body_field data "items") = true.
Proof.
  unfold order_rejected. intros H.
  apply orb_false_iff in H as [H _]. apply orb_false_iff in H as [H _].
  apply orb_false_iff in H as [H _]. apply orb_false_iff in H as [_ H].
  now apply negb_false_iff in H.
Qed.

Lemma chars_not_dicts (s : string) (items : list dict) :
  chars s = map PDict items -> s = "".
Proof.
  destruct s; [reflexivity|]. destruct items; discriminate.
Qed.

Lemma keys_not_dicts (d : dict) (items : list dict) :
  map (fun kv => PStr (fst kv)) d = map PDict items -> d = [].
Proof.
  destruct d; [reflexivity|]. destruct items; discriminate.
Qed.

(** What a 201 from [create_order] tells: the body was an object, its
    items a list of objects, and one order was appended. *)
Lemma create_order_success (w w' : world) (data body : pyval) :
  create_order data w = (Return (body, 201%Z), w') ->
  exists (fields : dict) (items : list dict),
    data = PDict fields /\
    body_field fields "items" = PList (map PDict items) /\
    w' = set_coll orders_collection (orders w ++ [new_order w fields items])
                  (set_next_oid (N.succ (next_oid w)) w).
Proof.
  intros Hrun.
  destruct data as [| | | | |fields];
    try (unfold create_order in Hrun;
         rewrite (bind_raise _ _ w w AttributeError) in Hrun by reflexivity;
         discriminate).
  rewrite create_order_run in Hrun.
  destruct (order_rejected fields) eqn:Hrej; [discriminate|].
  pose proof (order_accepted_items fields Hrej) as Htruthy.
  assert (exists items, body_field fields "items" = PList (map PDict items))
    as (items & Hitems).
  { destruct (body_field fields "items") as [| | |s|l|d] eqn:Hv;
      cbn [py_iter ret raise] in Hrun; try discriminate.
    - destruct (enrich_items (chars s) [] w) as [[r|e] w1] eqn:He;
        [|discriminate].
      destruct (enrich_items_returns _ _ _ _ _ He) as (items & Hc).
      apply chars_not_dicts in Hc. subst s. discriminate.
    - destruct (enrich_items l [] w) as [[r|e] w1] eqn:He; [|discriminate].
      destruct (enrich_items_returns _ _ _ _ _ He) as (items & ->).
      now exists items.
    - destruct (enrich_items _ [] w) as [[r|e] w1] eqn:He; [|discriminate].
      destruct (enrich_items_returns _ _ _ _ _ He) as (items & Hc).
      apply keys_not_dicts in Hc. subst d. discriminate. }
  rewrite Hitems in Hrun. cbn [py_iter ret] in Hrun.
  rewrite enrich_items_dicts in Hrun. cbn [app] in Hrun.
  injection Hrun as _ <-.
  now exists fields, items.
Qed.

(** C7, as stated, fails: with all five fields present and non-null, an
    empty item list, and likewise the number 0 as pincode, is answered
    400. *)
Lemma create_order_rejects_empty_items_and_zero_pincode :
  create_order
    (PDict [("user_email", PStr "ann@example.com"); ("items", PList []);
            ("city", PStr "Pune"); ("pincode", PInt 411001);
            ("total_price", PInt 18)])
    sample_world
  = (Return (error_body "Missing required order fields", 400%Z),
     sample_world) /\
  create_order
    (PDict [("user_email", PStr "ann@example.com");
            ("items", PList [PDict [("id", PInt 42)]]);
            ("city", PStr "Pune"); ("pincode", PInt 0);
            ("total_price", PInt 18)])
    sample_world
  = (Return (error_body "Missing required order fields", 400%Z),
     sample_world).
Proof. split; reflexivity. Qed.

(** ** Invariants of the store *)

Lemma keeps_bind {A B} (P : world -> Prop) (m : M A) (k : A -> M B) :
  keeps P m -> (forall a, keeps P (k a)) -> keeps P (bind m k).
Proof.
  intros Hm Hk w Hw. unfold bind. specialize (Hm w Hw).
  destruct (m w) as [[a|e] w1]; cbn [snd] in *.
  - now apply Hk.
  - exact Hm.
Qed.

Lemma keeps_reads {A} (P : world -> Prop) (m : M A) :
  reads m -> keeps P m.
Proof. intros Hm w Hw. now rewrite Hm. Qed.

Lemma reads_ret {A} (a : A) : reads (ret a).
Proof. now intros w. Qed.

Lemma reads_raise {A} (e : exn) : reads (@raise A e).
Proof. now intros w. Qed.

Lemma reads_read {A} (f : world -> A) : reads (read f).
Proof. now intros w. Qed.

Lemma reads_py_get (v : pyval) (k : string) : reads (py_get v k).
Proof. now destruct v. Qed.

Lemma reads_py_getitem (d : dict) (k : string) : reads (py_getitem d k).
Proof. intros w. unfold py_getitem. now destruct (dict_get k d). Qed.

Lemma reads_py_setitem (v : pyval) (k : string) (x : pyval) :
  reads (py_setitem v k x).
Proof. now destruct v. Qed.

Lemma reads_py_iter (v : pyval) : reads (py_iter v).
Proof. now destruct v. Qed.

Lemma reads_ObjectId (s : string) : reads (ObjectId s).
Proof. intros w. unfold ObjectId. now destruct (parse_oid s). Qed.

Lemma reads_find_one (c : collection) (q : query) : reads (find_one c q).
Proof. now intros w. Qed.

Lemma reads_find_all (c : collection) (q : query) : reads (find_all c q).
Proof. now intros w. Qed.

Lemma reads_jsonify_error (msg : string) (code : Z) :
  reads (jsonify_error msg code).
Proof. now intros w. Qed.

Lemma reads_jsonify_message (msg : string) (code : Z) :
  reads (jsonify_message msg code).
Proof. now intros w. Qed.

Lemma reads_enrich_items (l acc : list pyval) : reads (enrich_items l acc).
Proof. intros w. apply enrich_items_reads. Qed.

Lemma reads_check_password_hash {hasher : PasswordHasher}
      (stored password : pyval) :
  reads (check_password_hash stored password).
Proof. now destruct stored, password. Qed.

Create HintDb reads discriminated.

#[local] Hint Resolve reads_ret reads_raise reads_read reads_py_get
  reads_py_getitem reads_py_setitem reads_py_iter reads_ObjectId
  reads_find_one reads_find_all reads_jsonify_error reads_jsonify_message
  reads_enrich_items reads_check_password_hash : reads.

(** Walk down a handler: binds, branches, and calls that only read. *)
Ltac keeps_walk :=
  repeat match goal with
         | |- keeps _ (bind _ _) => apply keeps_bind; [|intro]
         | |- keeps _ (if ?b then _ else _) => destruct b
         | |- keeps _ (match ?x with _ => _ end) => destruct x
         | |- keeps _ _ => apply keeps_reads; solve [auto with reads]
         end.

Section Invariant.

Context {hasher : PasswordHasher}.

Variable P : world -> Prop.

(** The writes the handlers perform. *)
Hypothesis P_entropy : forall w n, P w -> P (set_entropy n w).
Hypothesis P_emitted : forall w l, P w -> P (set_emitted l w).
Hypothesis P_insert_user :
  forall name email h,
    keeps P (insert_one users_collection
               [("name", name); ("email", email); ("password", PStr h)]).
Hypothesis P_insert_order :
  forall user_email items city pincode total_price order_date,
    keeps P (insert_one orders_collection
               [("user_email", user_email); ("items", items); ("city", city);
                ("pincode", pincode); ("total_price", total_price);
                ("status", PStr "Pending"); ("order_date", order_date);
                ("cancellationRequested", PBool false)]).
Hypothesis P_set_stock :
  forall q v, keeps P (update_one products_collection q [("stock", v)] false).
Hypothesis P_request :
  forall o,
    keeps P (update_one orders_collection (q_id o)
               [("cancellationRequested", PBool true)] false).
Hypothesis P_set_status :
  forall o v,
    keeps P (update_one orders_collection (q_id o) [("status", v)] false).
Hypothesis P_set_cart :
  forall q v, keeps P (update_one cart_collection q [("items", v)] true).
Hypothesis P_set_credentials :
  forall q e h,
    keeps P (update_one users_collection q
               [("email", e); ("password", PStr h)] false).
Hypothesis P_delete_user : forall q, keeps P (delete_one users_collection q).
Hypothesis P_delete_orders :
  forall q, keeps P (delete_many orders_collection q).

Lemma keeps_generate_password_hash (password : pyval) :
  keeps P (generate_password_hash password).
Proof.
  destruct password; try (apply keeps_reads; apply reads_raise).
  intros w Hw. now apply P_entropy.
Qed.

Lemma keeps_emit (name : string) (data : pyval) : keeps P (emit name data).
Proof. intros w Hw. now apply P_emitted. Qed.

Lemma keeps_register (data : pyval) : keeps P (register data).
Proof.
  unfold register. keeps_walk;
    first [apply keeps_generate_password_hash | apply P_insert_user].
Qed.

Lemma keeps_login (data : pyval) : keeps P (login data).
Proof. unfold login. keeps_walk. Qed.

Lemma keeps_update_stock (product_id : Z) (data : pyval) :
  keeps P (update_stock product_id data).
Proof.
  unfold update_stock. keeps_walk; first [apply P_set_stock | apply keeps_emit].
Qed.

Lemma keeps_create_order (data : pyval) : keeps P (create_order data).
Proof.
  unfold create_order, utcnow. keeps_walk. apply P_insert_order.
Qed.

Lemma keeps_request_cancellation (order_id : string) :
  keeps P (request_cancellation order_id).
Proof. unfold request_cancellation. keeps_walk. apply P_request. Qed.

Lemma keeps_admin_update_order_status (order_id : string) (data : pyval) :
  keeps P (admin_update_order_status order_id data).
Proof. unfold admin_update_order_status. keeps_walk. apply P_set_status. Qed.

Lemma keeps_save_cart (data : pyval) : keeps P (save_cart data).
Proof. unfold save_cart. keeps_walk. apply P_set_cart. Qed.

Lemma keeps_admin_delete_user (user_id : string) :
  keeps P (admin_delete_user user_id).
Proof.
  unfold admin_delete_user. keeps_walk;
    first [apply P_delete_user | apply P_delete_orders].
Qed.

Lemma keeps_update_admin_credentials (data : pyval) :
  keeps P (update_admin_credentials data).
Proof.
  unfold update_admin_credentials. keeps_walk;
    first [apply keeps_generate_password_hash | apply P_set_credentials].
Qed.

(** A property kept by the writes is kept by every request, whether its
    handler returns or raises. *)
Lemma keeps_dispatch (r : request) : keeps P (dispatch r).
Proof.
  destruct r; cbn [dispatch].
  - apply keeps_register.
  - apply keeps_login.
  - unfold get_products. keeps_walk.
  - apply keeps_update_stock.
  - apply keeps_create_order.
  - unfold get_orders. keeps_walk.
  - apply keeps_request_cancellation.
  - unfold admin_get_orders. keeps_walk.
  - apply keeps_admin_update_order_status.
  - unfold get_cart. keeps_walk.
  - apply keeps_save_cart.
  - unfold admin_get_users. keeps_walk.
  - apply keeps_admin_delete_user.
  - apply keeps_update_admin_credentials.
Qed.

Lemma keeps_serve (rs : list request) (w : world) :
  P w -> P (serve rs w).
Proof.
  revert w. induction rs as [|r rs IH]; intros w Hw; cbn [serve].
  - exact Hw.
  - apply IH. now apply keeps_dispatch.
Qed.

End Invariant.

(** ** What the store writes do *)

Lemma update_one_world (c : collection) (q : query) (sets : dict)
      (upsert : bool) (w : world) :
  snd (update_one c q sets upsert w)
  = match find (matches q) (coll c w) with
    | Some _ =>
        match update_first (matches q) (set_fields sets) (coll c w) with
        | Some l => set_coll c l w
        | None => w
        end
    | None =>
        if upsert then
          set_coll c
            (coll c w
               ++ [mk_doc (next_oid w) (apply_set sets (query_fields q))])
            (set_next_oid (N.succ (next_oid w)) w)
        else w
    end.
Proof.
  unfold update_one.
  rewrite (bind_return _ _ _ _ _ (find_one_run c q w)).
  destruct (find (matches q) (coll c w)); [reflexivity|].
  destruct upsert; [|reflexivity].
  now rewrite (bind_return _ _ _ _ _ (insert_one_run c _ w)).
Qed.

Lemma update_one_returns (c : collection) (q : query) (sets : dict)
      (upsert : bool) (w : world) :
  exists result w', update_one c q sets upsert w = (Return result, w').
Proof.
  unfold update_one.
  rewrite (bind_return _ _ _ _ _ (find_one_run c q w)).
  destruct (find (matches q) (coll c w)); [eexists _, _; reflexivity|].
  destruct upsert; [|eexists _, _; reflexivity].
  rewrite (bind_return _ _ _ _ _ (insert_one_run c _ w)).
  eexists _, _; reflexivity.
Qed.

(** [update_first] rewrites one document and keeps the others in place. *)
Lemma update_first_pointwise (p : doc -> bool) (f : doc -> doc)
      (l l' : list doc) :
  update_first p f l = Some l' ->
  Forall2 (fun d d' => d' = d \/ d' = f d) l l'.
Proof.
  revert l'. induction l as [|x l IH]; intros l'; cbn [update_first].
  - discriminate.
  - destruct (p x).
    + intros [= <-]. constructor; [now right|].
      clear. induction l; constructor; auto.
    + destruct (update_first p f l) as [l''|]; [|discriminate].
      intros [= <-]. constructor; [now left | now apply IH].
Qed.

Lemma Forall2_preimage {A B} (R : A -> B -> Prop) (l : list A)
      (l' : list B) (y : B) :
  Forall2 R l l' -> In y l' -> exists x, In x l /\ R x y.
Proof.
  induction 1 as [|x y' l l' Hxy _ IH]; intros Hin; [destruct Hin|].
  destruct Hin as [<-|Hin].
  - exists x. split; [now left | exact Hxy].
  - destruct (IH Hin) as (x' & Hx' & HR). exists x'. split; [now right|auto].
Qed.

Lemma remove_first_incl (p : doc -> bool) (l : list doc) (d : doc) :
  In d (remove_first p l) -> In d l.
Proof.
  induction l as [|x l IH]; cbn [remove_first]; [auto|].
  destruct (p x); [now right|]. intros [<-|H]; [now left | right; auto].
Qed.

(** ** Stored users stay well formed *)

Section UsersOk.

Context {hasher : PasswordHasher}.

Lemma credentials_keep_user_ok (e : pyval) (h : string) (d : doc) :
  user_ok d = true ->
  user_ok (set_fields [("email", e); ("password", PStr h)] d) = true.
Proof.
  unfold user_ok, set_fields, apply_set, dict_has.
  cbn [doc_fields fold_left fst snd].
  rewrite dict_get_set_same.
  rewrite !dict_get_set_other by discriminate.
  destruct (dict_get "password" (doc_fields d)) as [[]|]; try discriminate.
  auto.
Qed.

Lemma users_ok_serve (rs : list request) (w : world) :
  users_ok w = true -> users_ok (serve rs w) = true.
Proof.
  apply (keeps_serve (fun w => users_ok w = true)).
  - intros w0 n H. exact H.
  - intros w0 l H. exact H.
  - intros name email h w0 H. rewrite insert_one_run. cbn [snd].
    unfold users_ok in *. cbn [users set_coll coll set_next_oid].
    rewrite forallb_app, H. reflexivity.
  - intros ? ? ? ? ? ? w0 H. rewrite insert_one_run. exact H.
  - intros q v w0 H. rewrite update_one_world. cbn [coll].
    destruct (find _ _); [|exact H].
    destruct (update_first _ _ _); exact H.
  - intros o w0 H. rewrite update_one_world. cbn [coll].
    destruct (find _ _); [|exact H].
    destruct (update_first _ _ _); exact H.
  - intros o v w0 H. rewrite update_one_world. cbn [coll].
    destruct (find _ _); [|exact H].
    destruct (update_first _ _ _); exact H.
  - intros q v w0 H. rewrite update_one_world. cbn [coll].
    destruct (find _ _); [|exact H].
    destruct (update_first _ _ _); exact H.
  - intros q e h w0 H. rewrite update_one_world. cbn [coll].
    destruct (find _ _) as [found_user|]; [|exact H].
    destruct (update_first _ _ (users w0)) as [l|] eqn:Hup; [|exact H].
    apply update_first_pointwise in Hup.
    unfold users_ok in *. cbn [users set_coll].
    rewrite forallb_forall in H. apply forallb_forall.
    intros d' Hd'.
    destruct (Forall2_preimage _ _ _ d' Hup Hd') as (d & Hd & [->| ->]).
    + now apply H.
    + apply credentials_keep_user_ok. now apply H.
  - intros q w0 H. unfold delete_one.
    rewrite (bind_return _ _ _ _ _ (find_one_run _ _ _)).
    destruct (find _ _) as [found_user|]; [|exact H].
    cbn [snd bind write ret]. unfold users_ok in *. cbn [users set_coll coll].
    rewrite forallb_forall in H. apply forallb_forall.
    intros u Hu. apply H. now apply remove_first_incl in Hu.
  - intros q w0 H. rewrite delete_many_run. exact H.
Qed.

End UsersOk.

(** ** Which requests are answered *)

Ltac step :=
  match goal with
  | |- context [bind (py_get (PDict ?d) ?k) _ ?w] =>
      rewrite (bind_return _ _ _ _ _ (py_get_dict d k w))
  | |- context [bind (find_one ?c ?q) _ ?w] =>
      rewrite (bind_return _ _ _ _ _ (find_one_run c q w))
  | |- context [bind (find_all ?c ?q) _ ?w] =>
      rewrite (bind_return _ _ _ _ _ (find_all_run c q w))
  | |- context [bind (insert_one ?c ?f) _ ?w] =>
      rewrite (bind_return _ _ _ _ _ (insert_one_run c f w))
  | |- context [bind (generate_password_hash (PStr ?p)) _ ?w] =>
      rewrite (bind_return _ _ _ _ _ (generate_password_hash_str p w))
  | |- context [bind (update_one ?c ?q ?s ?u) _ ?w] =>
      let result := fresh "result" in
      let w' := fresh "w" in
      let H := fresh "Hup" in
      destruct (update_one_returns c q s u w) as (result & w' & H);
      rewrite (bind_return _ _ _ _ _ H)
  end.

Ltac answered := eexists; split; reflexivity.

Section Answers.

Context {hasher : PasswordHasher}.

Lemma register_answers (d : dict) (w : world) :
  text_or_absent (body_field d "password") = true ->
  answers (register (PDict d)) w.
Proof.
  intros Hpw. unfold answers, register. do 3 step.
  destruct (body_field d "password") as [| | |p| |]; try discriminate.
  - cbn [truthy negb]. rewrite orb_true_r. answered.
  - destruct (_ || _); [answered|]. step.
    destruct (find _ _); [answered|]. cbn [found]. do 2 step. answered.
Qed.

Lemma login_answers (d : dict) (w : world) :
  users_ok w = true ->
  text_or_absent (body_field d "password") = true ->
  answers (login (PDict d)) w.
Proof.
  intros Hok Hpw. unfold answers, login. do 2 step.
  destruct (body_field d "password") as [| | |p| |]; try discriminate.
  - cbn [truthy negb]. rewrite orb_true_r. answered.
  - destruct (_ || _); [answered|]. step. cbn [coll].
    destruct (find _ (users w)) as [u|] eqn:Hfind; [|answered].
    change (found (Some u)) with true. cbn [negb].
    apply find_some in Hfind as [Hin _].
    unfold users_ok in Hok. rewrite forallb_forall in Hok.
    specialize (Hok u Hin). unfold user_ok, dict_has in Hok.
    destruct (dict_get "password" (doc_fields u)) as [[| | |h| |]|] eqn:Hh;
      try discriminate.
    destruct (dict_get "name" (doc_fields u)) as [name|] eqn:Hname;
      [|discriminate].
    rewrite <- (dict_get_as_dict u "password" eq_refl) in Hh.
    rewrite <- (dict_get_as_dict u "name" eq_refl) in Hname.
    rewrite (bind_return _ _ _ _ _ (py_getitem_some _ _ _ w Hh)).
    unfold check_password_hash.
    rewrite (bind_return _ _ w w (check_hash h p)) by reflexivity.
    destruct (check_hash h p); cbn [negb]; [|answered].
    rewrite (bind_return _ _ _ _ _ (py_getitem_some _ _ _ w Hname)).
    answered.
Qed.

Lemma update_stock_answers (product_id : Z) (d : dict) (w : world) :
  answers (update_stock product_id (PDict d)) w.
Proof.
  unfold answers, update_stock. step.
  destruct (is_None _); [answered|]. step.
  destruct (Nat.eqb _ _); answered.
Qed.

Lemma create_order_answers (d : dict) (w : world) :
  items_or_absent (body_field d "items") = true ->
  answers (create_order (PDict d)) w.
Proof.
  intros Hitems. unfold answers. rewrite create_order_run.
  destruct (order_rejected d) eqn:Hrej; [answered|].
  apply order_accepted_items in Hrej.
  destruct (body_field d "items") as [| | | |l|]; try discriminate.
  assert (exists items, l = map PDict items) as (items & ->).
  { clear Hrej. induction l as [|v l IH]; [now exists []|].
    cbn [items_or_absent forallb] in *.
    apply andb_true_iff in Hitems as [Hv Hl].
    destruct (IH Hl) as (items & ->).
    destruct v; try discriminate. now exists (d0 :: items). }
  cbn [py_iter ret]. rewrite enrich_items_dicts. answered.
Qed.

Lemma request_cancellation_answers (order_id : string) (w : world) :
  is_oid order_id = true -> answers (request_cancellation order_id) w.
Proof.
  unfold is_oid, answers, request_cancellation. intros Hid.
  destruct (parse_oid order_id) as [o|] eqn:Hparse; [|discriminate].
  rewrite (bind_return _ _ _ _ _ (ObjectId_valid _ _ w Hparse)). step.
  destruct (Nat.eqb _ _); answered.
Qed.

Lemma admin_update_order_status_answers
      (order_id : string) (d : dict) (w : world) :
  is_oid order_id = true ->
  answers (admin_update_order_status order_id (PDict d)) w.
Proof.
  unfold is_oid, answers, admin_update_order_status. intros Hid. step.
  destruct (negb _); [answered|].
  destruct (parse_oid order_id) as [o|] eqn:Hparse; [|discriminate].
  rewrite (bind_return _ _ _ _ _ (ObjectId_valid _ _ w Hparse)). step.
  destruct (Nat.eqb _ _); answered.
Qed.

Lemma get_cart_answers (user_email : string) (w : world) :
  answers (get_cart user_email) w.
Proof.
  unfold answers, get_cart. step.
  destruct (find _ _); [|answered]. destruct (truthy _); answered.
Qed.

Lemma save_cart_answers (d : dict) (w : world) :
  answers (save_cart (PDict d)) w.
Proof.
  unfold answers, save_cart. do 2 step.
  destruct (_ || _); [answered|]. step. answered.
Qed.

Lemma admin_delete_user_answers (user_id : string) (w : world) :
  is_oid user_id = true -> answers (admin_delete_user user_id) w.
Proof.
  unfold is_oid, answers. intros Hid. rewrite admin_delete_user_run.
  destruct (parse_oid user_id); [|discriminate].
  destruct (find _ _); answered.
Qed.

Lemma update_admin_credentials_answers (d : dict) (w : world) :
  text_or_absent (body_field d "new_password") = true ->
  answers (update_admin_credentials (PDict d)) w.
Proof.
  intros Hpw. unfold answers, update_admin_credentials. do 3 step.
  destruct (body_field d "new_password") as [| | |p| |]; try discriminate.
  - cbn [truthy negb]. rewrite orb_true_r. answered.
  - destruct (_ || _); [answered|]. step.
    destruct (negb _); [answered|]. do 2 step.
    destruct (Nat.eqb _ _); answered.
Qed.

Lemma well_formed_answers (r : request) (w : world) :
  users_ok w = true -> well_formed r = true -> answers (dispatch r) w.
Proof.
  intros Hok Hr.
  destruct r as [data|data| |product_id data|data|user_email|order_id|
                 |order_id data|user_email|data| |user_id|data];
    cbn [dispatch well_formed] in *.
  - destruct data; try discriminate. now apply register_answers.
  - destruct data; try discriminate. now apply login_answers.
  - unfold answers, get_products. step. answered.
  - destruct data; try discriminate. apply update_stock_answers.
  - destruct data; try discriminate. now apply create_order_answers.
  - unfold answers, get_orders. step. answered.
  - now apply request_cancellation_answers.
  - unfold answers, admin_get_orders. step. answered.
  - apply andb_true_iff in Hr as [Hid Hd].
    destruct data; try discriminate.
    now apply admin_update_order_status_answers.
  - apply get_cart_answers.
  - destruct data; try discriminate. apply save_cart_answers.
  - unfold answers, admin_get_users. step. answered.
  - now apply admin_delete_user_answers.
  - destruct data; try discriminate.
    now apply update_admin_credentials_answers.
Qed.

End Answers.

(** C8, as stated, fails: an order id that is not twenty-four hexadecimal
    digits makes both handlers raise [InvalidId] instead of answering. *)
Lemma malformed_order_id_raises :
  request_cancellation "not-an-id" sample_world
  = (Raise InvalidId, sample_world) /\
  admin_update_order_status "not-an-id" (PDict [("status", PStr "Shipped")])
                            sample_world
  = (Raise InvalidId, sample_world).
Proof. split; reflexivity. Qed.

(** ** Orders: cancellation requests *)

Lemma lookup_some (o : oid) (l : list doc) (d : doc) :
  lookup o l = Some d -> In d l /\ doc_id d = o.
Proof.
  unfold lookup. intros H. apply find_some in H as [Hin Hm].
  split; [exact Hin|]. now apply N.eqb_eq in Hm.
Qed.

Lemma lookup_unique (l : list doc) (d : doc) :
  NoDup (map doc_id l) -> In d l -> lookup (doc_id d) l = Some d.
Proof.
  unfold lookup. induction l as [|x l IH]; cbn [map find matches];
    intros Hnd Hin; [destruct Hin|].
  inversion Hnd as [|? ? Hx Hl]; subst.
  destruct Hin as [->|Hin].
  - now rewrite N.eqb_refl.
  - destruct (N.eqb (doc_id x) (doc_id d)) eqn:E; [|now apply IH].
    apply N.eqb_eq in E. destruct Hx. rewrite E. now apply in_map.
Qed.

Lemma find_app_cases (p : doc -> bool) (l l' : list doc) :
  find p (l ++ l') = match find p l with
                     | Some d => Some d
                     | None => find p l'
                     end.
Proof.
  induction l as [|x l IH]; cbn [app find]; [reflexivity|].
  now destruct (p x).
Qed.

Lemma NoDup_ids_filter (p : doc -> bool) (l : list doc) :
  NoDup (map doc_id l) -> NoDup (map doc_id (filter p l)).
Proof.
  induction l as [|x l IH]; cbn [map filter]; intros Hnd; [constructor|].
  inversion Hnd as [|? ? Hx Hl]; subst.
  destruct (p x); [|now apply IH].
  cbn [map]. constructor; [|now apply IH].
  intros Hin. apply Hx. apply in_map_iff in Hin as (y & Hy & Hin).
  apply filter_In in Hin as [Hin _]. rewrite <- Hy. now apply in_map.
Qed.

Lemma lookup_pointwise (R : doc -> doc -> Prop) (l l' : list doc) (o : oid)
      (d' : doc) :
  (forall d d', R d d' -> doc_id d' = doc_id d) ->
  Forall2 R l l' ->
  lookup o l' = Some d' ->
  exists d, lookup o l = Some d /\ R d d'.
Proof.
  intros Hid HR. unfold lookup.
  induction HR as [|x y l l' Hxy _ IH]; cbn [find matches]; [discriminate|].
  rewrite (Hid x y Hxy).
  destruct (N.eqb (doc_id x) o); [|exact IH].
  intros [= <-]. now exists x.
Qed.

Lemma pointwise_ids (sets : dict) (l l' : list doc) :
  Forall2 (fun d d' => d' = d \/ d' = set_fields sets d) l l' ->
  map doc_id l' = map doc_id l.
Proof.
  induction 1 as [|x y l l' [->| ->] _ IH]; cbn [map]; [reflexivity| |];
    now rewrite IH.
Qed.

Lemma dict_set_twice (k : string) (v : pyval) (d : dict) :
  dict_set k v (dict_set k v d) = dict_set k v d.
Proof.
  induction d as [|[k' v'] d IH]; cbn [dict_set].
  - now rewrite String.eqb_refl.
  - destruct (String.eqb k k') eqn:E; cbn [dict_set]; rewrite E;
      [reflexivity | now rewrite IH].
Qed.

Lemma request_sets_requested (d : doc) :
  requested (set_fields [("cancellationRequested", PBool true)] d) = true.
Proof.
  unfold requested, set_fields, apply_set. cbn [doc_fields fold_left fst snd].
  now rewrite dict_get_set_same.
Qed.

Lemma status_keeps_requested (v : pyval) (d : doc) :
  requested (set_fields [("status", v)] d) = requested d.
Proof.
  unfold requested, set_fields, apply_set. cbn [doc_fields fold_left fst snd].
  now rewrite dict_get_set_other by discriminate.
Qed.

Section Permanence.

Context {hasher : PasswordHasher}.

Variable w0 : world.

Lemma never_unrequested_refl : ids_ok w0 -> never_unrequested w0 w0.
Proof.
  intros Hids. repeat split; try apply Hids; [apply N.le_refl|].
  intros o d Hd. now rewrite Hd.
Qed.

(** Writes that leave the orders alone. *)
Lemma never_unrequested_frame (w w' : world) :
  orders w' = orders w -> (next_oid w <= next_oid w')%N ->
  never_unrequested w0 w -> never_unrequested w0 w'.
Proof.
  intros Ho Hn (Hids0 & (Hnd & Hlt) & Hle & Hmono).
  unfold never_unrequested, ids_ok. rewrite Ho.
  repeat split; try apply Hids0; try assumption.
  - eapply Forall_impl; [|exact Hlt]. cbn beta. intros d Hd. lia.
  - lia.
Qed.

(** A new order takes an id no order had. *)
Lemma never_unrequested_insert (w : world) (fields : dict) :
  never_unrequested w0 w ->
  never_unrequested w0 (snd (insert_one orders_collection fields w)).
Proof.
  intros (Hids0 & (Hnd & Hlt) & Hle & Hmono).
  rewrite insert_one_run. cbn [snd].
  unfold never_unrequested, ids_ok.
  cbn [orders next_oid set_coll set_next_oid coll].
  repeat split; try apply Hids0.
  - rewrite map_app. cbn [map]. apply NoDup_app; [exact Hnd| |].
    + constructor; [intros []|constructor].
    + intros i Hi [<-|[]]. apply in_map_iff in Hi as (d & Hd & Hin).
      rewrite Forall_forall in Hlt. specialize (Hlt d Hin).
      cbn [doc_id] in Hd. lia.
  - apply Forall_app. split.
    + eapply Forall_impl; [|exact Hlt]. cbn beta. intros d Hd. lia.
    + constructor; [cbn; lia|constructor].
  - lia.
  - intros o d Hd. unfold lookup in Hd. rewrite find_app_cases in Hd.
    destruct (find (matches (q_id o)) (orders w)) as [d1|] eqn:Hfind.
    + injection Hd as <-. now apply Hmono.
    + cbn [find matches doc_id] in Hd.
      destruct (N.eqb (next_oid w) o) eqn:E; [|discriminate].
      apply N.eqb_eq in E.
      destruct (lookup o (orders w0)) as [d0|] eqn:H0; [|lia].
      apply lookup_some in H0 as [Hin Hid].
      destruct Hids0 as [_ Hlt0]. rewrite Forall_forall in Hlt0.
      specialize (Hlt0 d0 Hin). lia.
Qed.

(** Rewriting fields of orders in place, when no request is dropped. *)
Lemma never_unrequested_pointwise (w : world) (sets : dict) (l : list doc) :
  (forall d, requested d = true -> requested (set_fields sets d) = true) ->
  Forall2 (fun d d' => d' = d \/ d' = set_fields sets d) (orders w) l ->
  never_unrequested w0 w ->
  never_unrequested w0 (set_coll orders_collection l w).
Proof.
  intros Hsets HR (Hids0 & (Hnd & Hlt) & Hle & Hmono).
  unfold never_unrequested, ids_ok. cbn [orders next_oid set_coll].
  repeat split; try apply Hids0; try assumption.
  - now rewrite (pointwise_ids sets _ _ HR).
  - apply Forall_forall. intros d' Hd'.
    destruct (Forall2_preimage _ _ _ d' HR Hd') as (d & Hd & Hdd').
    rewrite Forall_forall in Hlt. specialize (Hlt d Hd).
    now destruct Hdd' as [->| ->].
  - intros o d' Hd'.
    assert (forall d d' : doc,
               d' = d \/ d' = set_fields sets d -> doc_id d' = doc_id d)
      as Hid by (now intros ? ? [->| ->]).
    destruct (lookup_pointwise _ _ _ o d' Hid HR Hd') as (d & Hd & Hdd').
    specialize (Hmono o d Hd).
    destruct (lookup o (orders w0)); [|exact Hmono].
    intros H0. specialize (Hmono H0).
    destruct Hdd' as [->| ->]; [exact Hmono | now apply Hsets].
Qed.

Lemma never_unrequested_update (w : world) (q : query) (sets : dict) :
  (forall d, requested d = true -> requested (set_fields sets d) = true) ->
  never_unrequested w0 w ->
  never_unrequested w0 (snd (update_one orders_collection q sets false w)).
Proof.
  intros Hsets Hw. rewrite update_one_world. cbn [coll].
  destruct (find _ _); [|exact Hw].
  destruct (update_first _ _ (orders w)) as [l|] eqn:Hup; [|exact Hw].
  apply update_first_pointwise in Hup.
  now apply (never_unrequested_pointwise w sets l).
Qed.

(** Deleting orders. *)
Lemma never_unrequested_filter (w : world) (p : doc -> bool) :
  never_unrequested w0 w ->
  never_unrequested w0 (set_coll orders_collection (filter p (orders w)) w).
Proof.
  intros (Hids0 & (Hnd & Hlt) & Hle & Hmono).
  unfold never_unrequested, ids_ok. cbn [orders next_oid set_coll].
  repeat split; try apply Hids0; try assumption.
  - now apply NoDup_ids_filter.
  - apply Forall_forall. intros d Hd. apply filter_In in Hd as [Hd _].
    rewrite Forall_forall in Hlt. now apply Hlt.
  - intros o d Hd. apply Hmono.
    apply lookup_some in Hd as [Hin <-].
    apply filter_In in Hin as [Hin _]. now apply lookup_unique.
Qed.

(** Writes to the other collections. *)
Lemma never_unrequested_elsewhere (w : world) (c : collection) (q : query)
      (sets : dict) (upsert : bool) :
  c <> orders_collection ->
  never_unrequested w0 w ->
  never_unrequested w0 (snd (update_one c q sets upsert w)).
Proof.
  intros Hc Hw. rewrite update_one_world.
  destruct (find _ _);
    [destruct (update_first _ _ _); [|exact Hw]
    |destruct upsert; [|exact Hw]];
    (apply (never_unrequested_frame w);
     [now destruct c | destruct c; cbn; lia | exact Hw]).
Qed.

Lemma never_unrequested_serve (rs : list request) :
  ids_ok w0 -> never_unrequested w0 (serve rs w0).
Proof.
  intros Hids.
  apply (keeps_serve (never_unrequested w0));
    [..|now apply never_unrequested_refl].
  - intros w n. apply never_unrequested_frame; [reflexivity|apply N.le_refl].
  - intros w l. apply never_unrequested_frame; [reflexivity|apply N.le_refl].
  - intros name email h w Hw. rewrite insert_one_run.
    apply (never_unrequested_frame w); [reflexivity|cbn; lia|exact Hw].
  - intros ? ? ? ? ? ? w Hw. now apply never_unrequested_insert.
  - intros q v w. now apply never_unrequested_elsewhere.
  - intros o w. apply never_unrequested_update.
    intros d _. apply request_sets_requested.
  - intros o v w. apply never_unrequested_update.
    intros d Hd. now rewrite status_keeps_requested.
  - intros q v w. now apply never_unrequested_elsewhere.
  - intros q e h w. now apply never_unrequested_elsewhere.
  - intros q w Hw. unfold delete_one.
    rewrite (bind_return _ _ _ _ _ (find_one_run _ _ _)).
    destruct (find _ _); [|exact Hw].
    apply (never_unrequested_frame w); [reflexivity|apply N.le_refl|exact Hw].
  - intros q w Hw. rewrite delete_many_run.
    now apply never_unrequested_filter.
Qed.

End Permanence.

Lemma request_cancellation_found (w : world) (order_id : string) (o : oid)
      (d : doc) (before after : list doc) :
  parse_oid order_id = Some o ->
  orders w = before ++ d :: after ->
  (forall x, In x before -> matches (q_id o) x = false) ->
  matches (q_id o) d = true ->
  request_cancellation order_id w
  = (Return (message_body "Cancellation requested successfully", 200%Z),
     set_coll orders_collection
       (before
          ++ set_fields [("cancellationRequested", PBool true)] d :: after)
       w).
Proof.
  intros Hparse Hl Hb Hd. unfold request_cancellation.
  rewrite (bind_return _ _ _ _ _ (ObjectId_valid _ _ w Hparse)).
  destruct (update_one_found orders_collection (q_id o)
              [("cancellationRequested", PBool true)] false w d before after
              Hl Hb Hd) as (modified & Hup).
  now rewrite (bind_return _ _ _ _ _ Hup).
Qed.

Section PermanenceClaim.

Context {hasher : PasswordHasher}.

(** C9. From a store whose order ids are distinct, no sequence of requests
    turns the cancellation request of an existing order from true to
    anything else; a created order starts with it false; and
    [request_cancellation] on an existing order sets it to true, a second
    call answering the same and changing nothing. *)
Theorem cancellation_request_is_permanent (w0 : world) :
  (forall rs o d0 d,
      ids_ok w0 ->
      lookup o (orders w0) = Some d0 -> requested d0 = true ->
      lookup o (orders (serve rs w0)) = Some d ->
      requested d = true) /\
  (forall data body w',
      create_order data w0 = (Return (body, 201%Z), w') ->
      exists d, orders w' = orders w0 ++ [d] /\ requested d = false) /\
  (forall order_id o d0,
      parse_oid order_id = Some o ->
      lookup o (orders w0) = Some d0 ->
      exists w' d,
        request_cancellation order_id w0
        = (Return (message_body "Cancellation requested successfully",
                   200%Z), w') /\
        lookup o (orders w') = Some d /\ requested d = true /\
        request_cancellation order_id w'
        = (Return (message_body "Cancellation requested successfully",
                   200%Z), w')).
Proof.
  repeat split.
  - intros rs o d0 d Hids H0 Hreq Hd.
    destruct (never_unrequested_serve w0 rs Hids) as (_ & _ & _ & Hmono).
    specialize (Hmono o d Hd). rewrite H0 in Hmono. now apply Hmono.
  - intros data body w' Hrun.
    destruct (create_order_success _ _ _ _ Hrun)
      as (fields & items & _ & _ & ->).
    eexists. split; reflexivity.
  - intros order_id o d0 Hparse H0. unfold lookup in H0.
    destruct (find_split _ _ _ H0) as (before & after & Hl & Hb & Hd).
    set (d := set_fields [("cancellationRequested", PBool true)] d0).
    exists (set_coll orders_collection (before ++ d :: after) w0), d.
    split;
      [exact (request_cancellation_found w0 order_id o d0 before after
                Hparse Hl Hb Hd)|].
    split.
    { unfold lookup. cbn [orders set_coll].
      rewrite find_app_skip by exact Hb. cbn [find].
      change (matches (q_id o) d) with (matches (q_id o) d0).
      now rewrite Hd. }
    split; [apply request_sets_requested|].
    rewrite (request_cancellation_found
               (set_coll orders_collection (before ++ d :: after) w0)
               order_id o d before after Hparse eq_refl Hb Hd).
    cbn [set_coll users products orders carts next_oid emitted clock entropy].
    unfold d, set_fields, apply_set. cbn [doc_fields doc_id fold_left fst snd].
    now rewrite dict_set_twice.
Qed.

End PermanenceClaim.

Lemma cancellation_request_is_permanent_witness :
  exists d,
    lookup 3%N (orders (serve (hasher := sample_hasher)
                        sample_requests sample_world))
    = Some d /\ requested d = true.
Proof.
  eexists. split; [reflexivity|].
  refine (proj1 (cancellation_request_is_permanent (hasher := sample_hasher)
                   sample_world)
                sample_requests 3%N sample_order _ _ eq_refl eq_refl
                eq_refl).
  split.
  - repeat constructor. intros [].
  - repeat constructor.
Defined.

(** * Further properties of the handlers *)

(** ** Handlers that only read *)

Lemma reads_bind {A B} (m : M A) (k : A -> M B) :
  reads m -> (forall a, reads (k a)) -> reads (bind m k).
Proof.
  intros Hm Hk w. unfold bind. specialize (Hm w).
  destruct (m w) as [[a|e] w1]; cbn [snd] in *; subst w1.
  - apply Hk.
  - reflexivity.
Qed.

Ltac reads_walk :=
  repeat match goal with
         | |- reads (bind _ _) => apply reads_bind; [|intro]
         | |- reads (if ?b then _ else _) => destruct b
         | |- reads (match ?x with _ => _ end) => destruct x
         | |- reads _ => solve [auto with reads]
         end.

Section ReadOnly.

Context {hasher : PasswordHasher}.

(** [login] and the five GET handlers leave the world exactly as it was,
    whatever they answer and even when they raise. *)
Theorem read_only_requests_change_nothing (r : request) (w : world) :
  read_only r = true -> snd (dispatch r w) = w.
Proof.
  intros Hr. revert w. change (reads (dispatch r)).
  destruct r; try discriminate; cbn [dispatch].
  - unfold login. reads_walk.
  - unfold get_products. reads_walk.
  - unfold get_orders. reads_walk.
  - unfold admin_get_orders. reads_walk.
  - unfold get_cart. reads_walk.
  - unfold admin_get_users. reads_walk.
Qed.

End ReadOnly.

Lemma read_only_requests_change_nothing_witness :
  snd (dispatch (hasher := sample_hasher)
         (POST_login (PDict [("email", PStr "ann@example.com");
                             ("password", PStr "secret")]))
         sample_world)
  = sample_world.
Proof.
  exact (read_only_requests_change_nothing (hasher := sample_hasher)
           (POST_login (PDict [("email", PStr "ann@example.com");
                               ("password", PStr "secret")]))
           sample_world eq_refl).
Defined.

(** ** Listing users *)

Lemma dict_get_remove_same (k : string) (d : dict) :
  dict_get k (dict_remove k d) = None.
Proof.
  unfold dict_remove. induction d as [|[k' v] d IH]; cbn [filter fst];
    [reflexivity|].
  destruct (String.eqb k k') eqn:E; cbn [negb]; [exact IH|].
  cbn [dict_get]. now rewrite E.
Qed.

Lemma dict_get_remove_other (k k' : string) (d : dict) :
  k <> k' -> dict_get k (dict_remove k' d) = dict_get k d.
Proof.
  intros Hne. unfold dict_remove.
  induction d as [|[k0 v] d IH]; cbn [filter fst]; [reflexivity|].
  destruct (String.eqb k' k0) eqn:E; cbn [negb dict_get].
  - apply String.eqb_eq in E. subst k0.
    destruct (String.eqb k k') eqn:E'; [|exact IH].
    now apply String.eqb_eq in E'.
  - now rewrite IH.
Qed.

(** [admin_get_users] answers 200 with one entry per stored user, in store
    order: the entry carries the user's id as a string and every field of
    the user except [password], which no entry has. *)
Theorem admin_get_users_hides_passwords (w : world) :
  exists listing,
    admin_get_users w = (Return (PList listing, 200%Z), w) /\
    Forall2 (fun u entry =>
               exists fields,
                 entry = PDict fields /\
                 dict_get "_id" fields = Some (PStr (str_oid (doc_id u))) /\
                 dict_get "password" fields = None /\
                 forall k, k <> "password" -> k <> "_id" ->
                           dict_get k fields = dict_get k (doc_fields u))
            (users w) listing.
Proof.
  unfold admin_get_users.
  rewrite (bind_return _ _ _ _ _ (find_all_run _ _ _)).
  cbn [coll]. rewrite filter_q_all.
  eexists. split; [reflexivity|].
  induction (users w) as [|u l IH]; cbn [map]; constructor; [|exact IH].
  eexists. split; [reflexivity|].
  split; [reflexivity|].
  split.
  - cbn [dict_get]. change (String.eqb "password" "_id") with false.
    apply dict_get_remove_same.
  - intros k Hk Hid. cbn [dict_get].
    destruct (String.eqb k "_id") eqn:E.
    + now apply String.eqb_eq in E.
    + now apply dict_get_remove_other.
Qed.

(** ** Orders: listing and updating *)

Lemma filter_app_docs (p : doc -> bool) (l l' : list doc) :
  filter p (l ++ l') = filter p l ++ filter p l'.
Proof.
  induction l as [|x l IH]; cbn [app filter]; [reflexivity|].
  destruct (p x); cbn [app]; now rewrite IH.
Qed.

Lemma get_orders_run (e : string) (w : world) :
  get_orders e w
  = (Return (PList (map (fun d => PDict (as_dict d))
                        (filter (matches (q_field "user_email" (PStr e)))
                                (orders w))), 200%Z), w).
Proof.
  unfold get_orders. now rewrite (bind_return _ _ _ _ _ (find_all_run _ _ _)).
Qed.



(** [request_cancellation] with a well-formed id: no order with that id
    gives 404 and an unchanged world; otherwise the first order with that id
    gets [cancellationRequested] true, whatever its status, while every
    other field of it, its status included, and every other order stay as
    they were. *)
Theorem request_cancellation_flags_one_order
        (w : world) (order_id : string) (o : oid) :
  parse_oid order_id = Some o ->
  (lookup o (orders w) = None ->
   request_cancellation order_id w
   = (Return (error_body "Order not found", 404%Z), w)) /\
  (forall d,
      lookup o (orders w) = Some d ->
      exists before after d',
        orders w = before ++ d :: after /\
        (forall x, In x before -> doc_id x <> o) /\
        request_cancellation order_id w
        = (Return (message_body "Cancellation requested successfully",
                   200%Z),
           set_coll orders_collection (before ++ d' :: after) w) /\
        doc_id d' = doc_id d /\
        dict_get "cancellationRequested" (doc_fields d') = Some (PBool true) /\
        forall k, k <> "cancellationRequested" ->
                  dict_get k (doc_fields d') = dict_get k (doc_fields d)).
Proof.
  intros Hparse. split.
  - intros Hnone. unfold request_cancellation.
    rewrite (bind_return _ _ _ _ _ (ObjectId_valid _ _ w Hparse)).
    now rewrite (bind_return _ _ _ _ _
                   (update_one_missing orders_collection (q_id o) _ w Hnone)).
  - intros d Hfind.
    destruct (find_split _ _ _ Hfind) as (before & after & Hl & Hb & Hd).
    exists before, after,
      (set_fields [("cancellationRequested", PBool true)] d).
    split; [exact Hl|].
    split.
    { intros x Hx Heq. specialize (Hb x Hx). cbn [matches] in Hb.
      rewrite Heq, N.eqb_refl in Hb. discriminate. }
    split;
      [exact (request_cancellation_found w order_id o d before after
                Hparse Hl Hb Hd)|].
    split; [reflexivity|].
    split; [apply dict_get_set_same|].
    intros k Hk. now apply dict_get_set_other.
Qed.

Lemma request_cancellation_flags_one_order_witness :
  request_cancellation "0000000000000000000000aa" sample_world
  = (Return (error_body "Order not found", 404%Z), sample_world).
Proof.
  exact (proj1 (request_cancellation_flags_one_order
                  sample_world "0000000000000000000000aa" 170%N eq_refl)
               eq_refl).
Defined.

(** ** Accounts: how the operations compose *)

Lemma update_one_found_count (c : collection) (q : query) (sets : dict)
      (upsert : bool) (w : world) (d : doc) (before after : list doc) :
  coll c w = before ++ d :: after ->
  (forall x, In x before -> matches q x = false) ->
  matches q d = true ->
  update_one c q sets upsert w
  = (Return (mk_update_result 1
               (if dict_eqb (doc_fields d) (apply_set sets (doc_fields d))
                then 0 else 1)),
     set_coll c (before ++ set_fields sets d :: after) w).
Proof.
  intros Hl Hb Hd. unfold update_one.
  assert (find (matches q) (coll c w) = Some d) as Hfind.
  { rewrite Hl, find_app_skip by assumption. cbn [find]. now rewrite Hd. }
  rewrite (bind_return _ _ _ _ _ (find_one_run c q w)), Hfind.
  unfold bind, write, ret.
  rewrite Hl, update_first_split by assumption. reflexivity.
Qed.

Lemma remove_first_at (p : doc -> bool) (before after : list doc) (d : doc) :
  (forall x, In x before -> p x = false) -> p d = true ->
  remove_first p (before ++ d :: after) = before ++ after.
Proof.
  induction before as [|x b IH]; cbn [app remove_first]; intros Hb Hd.
  - now rewrite Hd.
  - rewrite (Hb x) by now left. rewrite IH; auto. intros y Hy. apply Hb.
    now right.
Qed.

Lemma filter_out_then_in (p : doc -> bool) (l : list doc) :
  filter p (filter (fun d => negb (p d)) l) = [].
Proof.
  induction l as [|x l IH]; cbn [filter]; [reflexivity|].
  destruct (p x) eqn:E; cbn [negb filter]; [exact IH|]. now rewrite E.
Qed.

Lemma dict_eqb_eq (a b : dict) : dict_eqb a b = true -> a = b.
Proof.
  unfold dict_eqb. intros H. apply pyval_eqb_eq in H. now injection H.
Qed.

Section AccountsCompose.

Context {hasher : PasswordHasher}.

(** The three ways [login] ends on a present email and password. *)
Lemma login_run (w : world) (data : dict) (e p : string) :
  body_field data "email" = PStr e -> e <> "" ->
  body_field data "password" = PStr p -> p <> "" ->
  login (PDict data) w
  = match find (matches (q_field "email" (PStr e))) (users w) with
    | None => (Return (error_body "Invalid email or password", 401%Z), w)
    | Some u =>
        match dict_get "password" (doc_fields u) with
        | Some (PStr h) =>
            if check_hash h p then
              match dict_get "name" (doc_fields u) with
              | Some name =>
                  (Return (PDict [("message", PStr "Login successful");
                                  ("name", name)], 200%Z), w)
              | None => (Raise KeyError, w)
              end
            else (Return (error_body "Invalid email or password", 401%Z), w)
        | Some _ => (Raise AttributeError, w)
        | None => (Raise KeyError, w)
        end
    end.
Proof.
  intros Hemail He Hpw Hp. unfold login.
  rewrite (bind_return _ _ _ _ _ (py_get_dict data "email" w)).
  rewrite (bind_return _ _ _ _ _ (py_get_dict data "password" w)).
  rewrite Hemail, Hpw, (truthy_str e He), (truthy_str p Hp).
  cbn [negb orb].
  rewrite (bind_return _ _ _ _ _ (find_one_run _ _ _)). cbn [coll].
  destruct (find _ (users w)) as [u|]; [|reflexivity].
  change (found (Some u)) with true. cbn [negb].
  unfold py_getitem at 1. rewrite (dict_get_as_dict u "password" eq_refl).
  destruct (dict_get "password" (doc_fields u)) as [stored|]; [|reflexivity].
  rewrite (bind_return _ _ w w stored) by reflexivity.
  destruct stored as [| | |h| |]; try reflexivity.
  unfold check_password_hash.
  rewrite (bind_return _ _ w w (check_hash h p)) by reflexivity.
  destruct (check_hash h p); cbn [negb]; [|reflexivity].
  unfold py_getitem. rewrite (dict_get_as_dict u "name" eq_refl).
  now destruct (dict_get "name" (doc_fields u)).
Qed.



End AccountsCompose.


Section Credentials.

Context {hasher : PasswordHasher}.

(** The user [update_admin_credentials] writes back. *)
Lemma update_admin_credentials_found
      (w : world) (data : dict) (cur new p : string) (u : doc)
      (before after : list doc) :
  body_field data "current_email" = PStr cur -> cur <> "" ->
  body_field data "new_email" = PStr new -> new <> "" ->
  body_field data "new_password" = PStr p -> p <> "" ->
  users w = before ++ u :: after ->
  (forall x, In x before -> matches (q_field "email" (PStr cur)) x = false) ->
  matches (q_field "email" (PStr cur)) u = true ->
  let u' := set_fields [("email", PStr new);
                        ("password",
                         PStr (hash_with (salt_of (entropy w)) p))] u in
  update_admin_credentials (PDict data) w
  = (Return (if dict_eqb (doc_fields u) (doc_fields u')
             then (error_body "Failed to update admin credentials", 500%Z)
             else (message_body "Admin credentials updated successfully",
                   200%Z)),
     set_coll users_collection (before ++ u' :: after)
              (set_entropy (N.succ (entropy w)) w)).
Proof.
  intros Hcur Hc Hnew Hn Hpw Hp Hl Hb Hu u'.
  unfold update_admin_credentials.
  rewrite (bind_return _ _ _ _ _ (py_get_dict data "current_email" w)).
  rewrite (bind_return _ _ _ _ _ (py_get_dict data "new_email" w)).
  rewrite (bind_return _ _ _ _ _ (py_get_dict data "new_password" w)).
  rewrite Hcur, Hnew, Hpw, (truthy_str cur Hc), (truthy_str new Hn),
    (truthy_str p Hp).
  cbn [negb orb].
  rewrite (bind_return _ _ _ _ _ (find_one_run _ _ _)). cbn [coll].
  rewrite Hl, find_app_skip by exact Hb. cbn [find]. rewrite Hu.
  change (found (Some u)) with true. cbn [negb].
  rewrite (bind_return _ _ _ _ _ (generate_password_hash_str p w)).
  rewrite (bind_return _ _ _ _ _
             (update_one_found_count users_collection
                (q_field "email" (PStr cur)) _ false
                (set_entropy (N.succ (entropy w)) w) u before after Hl Hb Hu)).
  cbn [modified_count]. fold u'.
  change (apply_set
            [("email", PStr new);
             ("password", PStr (hash_with (salt_of (entropy w)) p))]
            (doc_fields u)) with (doc_fields u').
  now destruct (dict_eqb (doc_fields u) (doc_fields u')).
Qed.

(** After [update_admin_credentials] rewrote the first user known under
    either email, [login] with the new email and password answers 200 with
    that user's name, provided the hashing library verifies the hash it has
    just produced; [login] with the old email answers 401 when the emails
    differ and no other user has the old one. *)
Theorem new_credentials_log_in
        (w : world) (data : dict) (cur new p : string) (u : doc)
        (before after : list doc) (name : pyval) :
  body_field data "current_email" = PStr cur -> cur <> "" ->
  body_field data "new_email" = PStr new -> new <> "" ->
  body_field data "new_password" = PStr p -> p <> "" ->
  users w = before ++ u :: after ->
  (forall x, In x before ->
             matches (q_field "email" (PStr cur)) x = false /\
             matches (q_field "email" (PStr new)) x = false) ->
  matches (q_field "email" (PStr cur)) u = true ->
  dict_get "name" (doc_fields u) = Some name ->
  check_hash (hash_with (salt_of (entropy w)) p) p = true ->
  exists resp w',
    update_admin_credentials (PDict data) w = (Return resp, w') /\
    login (PDict [("email", PStr new); ("password", PStr p)]) w'
    = (Return (PDict [("message", PStr "Login successful");
                      ("name", name)], 200%Z), w') /\
    (cur <> new ->
     (forall x, In x after ->
                matches (q_field "email" (PStr cur)) x = false) ->
     forall p', p' <> "" ->
     login (PDict [("email", PStr cur); ("password", PStr p')]) w'
     = (Return (error_body "Invalid email or password", 401%Z), w')).
Proof.
  intros Hcur Hc Hnew Hn Hpw Hp Hl Hb Hu Hname Hcheck.
  rewrite (update_admin_credentials_found w data cur new p u before after)
    by (try assumption; intros x Hx; now apply Hb).
  set (u' := set_fields _ u).
  assert (dict_get "email" (doc_fields u') = Some (PStr new)) as Hemail'.
  { unfold u', set_fields, apply_set. cbn [doc_fields fold_left fst snd].
    rewrite dict_get_set_other by discriminate. apply dict_get_set_same. }
  eexists _, _. split; [reflexivity|]. split.
  - rewrite (login_run _ [("email", PStr new); ("password", PStr p)] new p)
      by (try reflexivity; assumption).
    cbn [users set_coll set_entropy].
    rewrite find_app_skip by (intros x Hx; now apply Hb).
    cbn [find matches]. rewrite Hemail', field_matches_same.
    assert (dict_get "password" (doc_fields u')
            = Some (PStr (hash_with (salt_of (entropy w)) p))) as ->.
    { unfold u', set_fields, apply_set. cbn [doc_fields fold_left fst snd].
      apply dict_get_set_same. }
    rewrite Hcheck.
    assert (dict_get "name" (doc_fields u') = Some name) as ->; [|reflexivity].
    unfold u', set_fields, apply_set. cbn [doc_fields fold_left fst snd].
    now rewrite !dict_get_set_other by discriminate.
  - intros Hne Hafter p' Hp'.
    rewrite (login_run _ [("email", PStr cur); ("password", PStr p')] cur p')
      by (try reflexivity; assumption).
    cbn [users set_coll set_entropy].
    rewrite find_app_skip by (intros x Hx; now apply Hb).
    cbn [find matches]. rewrite Hemail'. cbn [field_matches pyval_eqb].
    destruct (String.eqb new cur) eqn:E;
      [apply String.eqb_eq in E; now destruct Hne|].
    cbn [orb].
    destruct (find _ after) as [x|] eqn:Hx; [|reflexivity].
    apply find_some in Hx as [Hin Hm]. now rewrite (Hafter x Hin) in Hm.
Qed.

(** After a successful [admin_delete_user] of a user whose email no other
    user has, [login] with that email answers 401 for every password and
    [get_orders] for that email answers the empty list. *)
Theorem deleted_user_is_locked_out
        (w : world) (user_id : string) (o : oid) (u : doc) (e : string)
        (before after : list doc) :
  parse_oid user_id = Some o ->
  users w = before ++ u :: after ->
  (forall x, In x before -> doc_id x <> o) ->
  doc_id u = o ->
  body_field (doc_fields u) "email" = PStr e -> e <> "" ->
  (forall x, In x (before ++ after) ->
             matches (q_field "email" (PStr e)) x = false) ->
  exists w',
    admin_delete_user user_id w
    = (Return (message_body "User and their orders removed successfully",
               200%Z), w') /\
    users w' = before ++ after /\
    (forall p, p <> "" ->
       login (PDict [("email", PStr e); ("password", PStr p)]) w'
       = (Return (error_body "Invalid email or password", 401%Z), w')) /\
    get_orders e w' = (Return (PList [], 200%Z), w').
Proof.
  intros Hparse Hl Hb Hid Hemail He Hothers.
  assert (forall x, In x before -> matches (q_id o) x = false) as Hb'.
  { intros x Hx. cbn [matches]. apply N.eqb_neq. now apply Hb. }
  assert (matches (q_id o) u = true) as Hu.
  { cbn [matches]. now apply N.eqb_eq. }
  rewrite admin_delete_user_run, Hparse, Hl,
    find_app_skip by exact Hb'.
  cbn [find]. rewrite Hu, Hemail.
  rewrite (remove_first_at _ before after u Hb' Hu).
  eexists. split; [reflexivity|].
  cbn [users set_coll]. split; [reflexivity|]. split.
  - intros p Hp.
    rewrite (login_run _ [("email", PStr e); ("password", PStr p)] e p)
      by (try reflexivity; assumption).
    cbn [users set_coll].
    destruct (find _ (before ++ after)) as [x|] eqn:Hx; [|reflexivity].
    apply find_some in Hx as [Hin Hm]. now rewrite (Hothers x Hin) in Hm.
  - rewrite get_orders_run. cbn [orders set_coll].
    now rewrite filter_out_then_in.
Qed.

End Credentials.

Lemma new_credentials_log_in_witness :
  exists resp w',
    update_admin_credentials (hasher := sample_hasher)
      (PDict [("current_email", PStr "ann@example.com");
              ("new_email", PStr "admin@example.com");
              ("new_password", PStr "s3cret")]) sample_world
    = (Return resp, w') /\
    login (hasher := sample_hasher)
      (PDict [("email", PStr "admin@example.com");
              ("password", PStr "s3cret")]) w'
    = (Return (PDict [("message", PStr "Login successful");
                      ("name", PStr "Ann")], 200%Z), w').
Proof.
  destruct (new_credentials_log_in (hasher := sample_hasher) sample_world
              [("current_email", PStr "ann@example.com");
               ("new_email", PStr "admin@example.com");
               ("new_password", PStr "s3cret")]
              "ann@example.com" "admin@example.com" "s3cret"
              sample_user [] [] (PStr "Ann")
              eq_refl ltac:(discriminate) eq_refl ltac:(discriminate)
              eq_refl ltac:(discriminate) eq_refl
              ltac:(intros x []) eq_refl eq_refl eq_refl)
    as (resp & w' & Hrun & Hlogin & _).
  exists resp, w'. split; [exact Hrun | exact Hlogin].
Defined.

Lemma deleted_user_is_locked_out_witness :
  exists w',
    admin_delete_user "000000000000000000000001" sample_world
    = (Return (message_body "User and their orders removed successfully",
               200%Z), w') /\
    login (hasher := sample_hasher)
      (PDict [("email", PStr "ann@example.com");
              ("password", PStr "secret")]) w'
    = (Return (error_body "Invalid email or password", 401%Z), w') /\
    get_orders "ann@example.com" w' = (Return (PList [], 200%Z), w').
Proof.
  destruct (deleted_user_is_locked_out (hasher := sample_hasher) sample_world
              "000000000000000000000001" 1%N sample_user "ann@example.com"
              [] [] eq_refl eq_refl ltac:(intros x []) eq_refl eq_refl
              ltac:(discriminate) ltac:(intros x []))
    as (w' & Hrun & _ & Hlogin & Horders).
  exists w'. split; [exact Hrun|]. split; [|exact Horders].
  apply Hlogin. discriminate.
Defined.

(** ** What request sequences keep *)

Lemma Forall2_chain {A} (R S : A -> A -> Prop) (l0 l l' : list A) :
  (forall a b c, R a b -> S b c -> R a c) ->
  Forall2 R l0 l -> Forall2 S l l' -> Forall2 R l0 l'.
Proof.
  intros Hrs HR. revert l'.
  induction HR as [|a b l0 l Hab _ IH]; intros l' HS;
    inversion HS; subst; constructor; eauto.
Qed.

Lemma same_but_stock_refl (l : list doc) : Forall2 same_but_stock l l.
Proof. induction l; constructor; [now split|assumption]. Qed.

Lemma delete_one_world (c : collection) (q : query) (w : world) :
  snd (delete_one c q w)
  = match find (matches q) (coll c w) with
    | Some _ => set_coll c (remove_first (matches q) (coll c w)) w
    | None => w
    end.
Proof.
  unfold delete_one.
  rewrite (bind_return _ _ _ _ _ (find_one_run c q w)).
  now destruct (find (matches q) (coll c w)).
Qed.

Section Sequences.

Context {hasher : PasswordHasher}.

(** Whatever requests are served, the products stay the same documents in
    the same order: none is added or removed, and nothing but the stock of a
    product ever changes. *)
Theorem products_change_only_in_stock (rs : list request) (w0 : world) :
  Forall2 same_but_stock (products w0) (products (serve rs w0)).
Proof.
  apply (keeps_serve (fun w => Forall2 same_but_stock (products w0)
                                       (products w)));
    [..|apply same_but_stock_refl].
  - intros w n H. exact H.
  - intros w l H. exact H.
  - intros name email h w H. rewrite insert_one_run. exact H.
  - intros ? ? ? ? ? ? w H. rewrite insert_one_run. exact H.
  - intros q v w H. rewrite update_one_world. cbn [coll].
    destruct (find _ _); [|exact H].
    destruct (update_first _ _ (products w)) as [l|] eqn:Hup; [|exact H].
    apply update_first_pointwise in Hup. cbn [products set_coll].
    refine (Forall2_chain _ _ _ _ _ _ H Hup).
    intros a b c [Hid Hk] [->| ->]; [now split|].
    split; [exact Hid|]. intros k Hne.
    unfold set_fields, apply_set. cbn [doc_fields fold_left fst snd].
    rewrite dict_get_set_other by assumption. now apply Hk.
  - intros o w H. rewrite update_one_world. cbn [coll].
    destruct (find _ _); [|exact H]. destruct (update_first _ _ _); exact H.
  - intros o v w H. rewrite update_one_world. cbn [coll].
    destruct (find _ _); [|exact H]. destruct (update_first _ _ _); exact H.
  - intros q v w H. rewrite update_one_world. cbn [coll].
    destruct (find _ _); [|exact H]. destruct (update_first _ _ _); exact H.
  - intros q e h w H. rewrite update_one_world. cbn [coll].
    destruct (find _ _); [|exact H]. destruct (update_first _ _ _); exact H.
  - intros q w H. rewrite delete_one_world. cbn [coll].
    destruct (find _ _); exact H.
  - intros q w H. rewrite delete_many_run. exact H.
Qed.

Lemma log_frame (w0 w w' : world) :
  emitted w' = emitted w ->
  only_stock_updates_since w0 w -> only_stock_updates_since w0 w'.
Proof. unfold only_stock_updates_since. now intros ->. Qed.

Lemma update_one_log (c : collection) (q : query) (sets : dict)
      (upsert : bool) (w : world) :
  emitted (snd (update_one c q sets upsert w)) = emitted w.
Proof.
  rewrite update_one_world.
  destruct (find _ _);
    [destruct (update_first _ _ _)|destruct upsert]; now destruct c.
Qed.

Lemma insert_one_log (c : collection) (fields : dict) (w : world) :
  emitted (snd (insert_one c fields w)) = emitted w.
Proof. rewrite insert_one_run. now destruct c. Qed.

Lemma stock_update_is_logged (w0 : world) (product_id : Z) (data : pyval) :
  keeps (only_stock_updates_since w0) (update_stock product_id data).
Proof.
  unfold update_stock. keeps_walk.
  - intros w H. apply (log_frame w0 w); [apply update_one_log | exact H].
  - intros w (l & Hl & Hall). exists (l ++ [stock_event product_id a]).
    cbn [snd emit write emitted set_emitted]. rewrite Hl, app_assoc.
    split; [reflexivity|].
    apply Forall_app. split; [exact Hall|]. now constructor.
Qed.

(** Whatever requests are served, nothing already broadcast is retracted or
    altered, and every event they add is a [stock_update]. *)
Theorem requests_only_append_stock_updates (rs : list request) (w0 : world) :
  only_stock_updates_since w0 (serve rs w0).
Proof.
  assert (forall r, keeps (only_stock_updates_since w0) (dispatch r)) as Hstep.
  { assert (forall w n, only_stock_updates_since w0 w ->
                        only_stock_updates_since w0 (set_entropy n w))
      as Hentropy by (intros w n H; exact H).
    assert (forall c fields,
               keeps (only_stock_updates_since w0) (insert_one c fields))
      as Hinsert.
    { intros c fields w H.
      apply (log_frame w0 w); [apply insert_one_log | exact H]. }
    assert (forall c q sets upsert,
               keeps (only_stock_updates_since w0)
                     (update_one c q sets upsert)) as Hupdate.
    { intros c q sets upsert w H.
      apply (log_frame w0 w); [apply update_one_log | exact H]. }
    intros r. destruct r; cbn [dispatch].
    - apply keeps_register; [exact Hentropy | intros; apply Hinsert].
    - apply keeps_login.
    - unfold get_products. keeps_walk.
    - apply stock_update_is_logged.
    - apply keeps_create_order. intros; apply Hinsert.
    - unfold get_orders. keeps_walk.
    - apply keeps_request_cancellation. intros; apply Hupdate.
    - unfold admin_get_orders. keeps_walk.
    - apply keeps_admin_update_order_status. intros; apply Hupdate.
    - unfold get_cart. keeps_walk.
    - apply keeps_save_cart. intros; apply Hupdate.
    - unfold admin_get_users. keeps_walk.
    - apply keeps_admin_delete_user.
      + intros q w H. rewrite delete_one_world.
        destruct (find _ _); exact H.
      + intros q w H. rewrite delete_many_run. exact H.
    - apply keeps_update_admin_credentials;
        [exact Hentropy | intros; apply Hupdate]. }
  assert (forall w, only_stock_updates_since w0 w ->
                    only_stock_updates_since w0 (serve rs w)) as Hserve.
  { induction rs as [|r rs IH]; intros w Hw; cbn [serve]; [exact Hw|].
    apply IH. now apply Hstep. }
  apply Hserve. exists []. split; [now rewrite app_nil_r | constructor].
Qed.

End Sequences.

Section StoredUsers.

Context {hasher : PasswordHasher}.

(** Whatever requests are served, well-formed or not, every stored user
    keeps a string password hash and a name once all of them had one:
    [register] stores both, [update_admin_credentials] rewrites the hash
    and keeps the name, and nothing else writes a user. *)
Theorem served_users_keep_hash_and_name (rs : list request) (w : world) :
  users_ok w = true ->
  forall u, In u (users (serve rs w)) ->
            (exists h, dict_get "password" (doc_fields u) = Some (PStr h)) /\
            (exists name, dict_get "name" (doc_fields u) = Some name).
Proof.
  intros Hok u Hu.
  pose proof (users_ok_serve rs w Hok) as Hserved.
  unfold users_ok in Hserved. rewrite forallb_forall in Hserved.
  specialize (Hserved u Hu). unfold user_ok, dict_has in Hserved.
  destruct (dict_get "password" (doc_fields u)) as [[| | |h| |]|];
    try discriminate.
  destruct (dict_get "name" (doc_fields u)) as [name|]; [|discriminate].
  split; eexists; reflexivity.
Qed.

End StoredUsers.

Lemma served_users_keep_hash_and_name_witness :
  (exists h, dict_get "password" (doc_fields sample_user) = Some (PStr h)) /\
  (exists name, dict_get "name" (doc_fields sample_user) = Some name).
Proof.
  exact (served_users_keep_hash_and_name (hasher := sample_hasher)
           [POST_register
              (PDict [("name", PStr "Bob"); ("email", PStr "bob@example.com");
                      ("password", PStr "hunter2")])]
           sample_world eq_refl sample_user (or_introl eq_refl)).
Defined.

(** ** Cart: other users *)


Lemma find_none_filter (p : doc -> bool) (l : list doc) :
  find p l = None -> filter p l = [].
Proof.
  induction l as [|x l IH]; cbn [find filter]; [reflexivity|].
  destruct (p x); [discriminate | exact IH].
Qed.




(** ** Accounts: one user per email *)

Section UniqueEmails.

Context {hasher : PasswordHasher}.

(** [register] keeps emails unique when the submitted email is text: on a
    store where every email string finds at most one user, the same holds
    after the call, whatever the body and however the call ends. *)
Theorem register_keeps_emails_unique (w : world) (data : pyval) :
  (forall d, data = PDict d -> text_or_absent (body_field d "email") = true) ->
  emails_unique w ->
  emails_unique (snd (register data w)).
Proof.
  intros Htext Huniq.
  destruct data as [| | | | |d];
    try (unfold register;
         rewrite (bind_raise _ _ w w AttributeError) by reflexivity;
         exact Huniq).
  specialize (Htext d eq_refl). unfold register.
  rewrite (bind_return _ _ _ _ _ (py_get_dict d "name" w)).
  rewrite (bind_return _ _ _ _ _ (py_get_dict d "email" w)).
  rewrite (bind_return _ _ _ _ _ (py_get_dict d "password" w)).
  destruct (body_field d "email") as [| | |e| |]; try discriminate.
  - cbn [truthy negb]. rewrite orb_true_r. cbn [orb]. exact Huniq.
  - destruct (_ || _); [exact Huniq|].
    rewrite (bind_return _ _ _ _ _ (find_one_run _ _ _)). cbn [coll].
    destruct (find _ (users w)) as [u|] eqn:Hfind; [exact Huniq|].
    cbn [found].
    destruct (body_field d "password") as [| | |p| |];
      try (rewrite (bind_raise _ _ w w AttributeError) by reflexivity;
           exact Huniq).
    rewrite (bind_return _ _ _ _ _ (generate_password_hash_str p w)).
    rewrite (bind_return _ _ _ _ _ (insert_one_run _ _ _)).
    cbn [snd jsonify_message ret]. intros e0.
    cbn [users set_coll set_next_oid set_entropy coll].
    rewrite filter_app_docs, length_app.
    cbn [filter matches doc_fields dict_get].
    change (String.eqb "email" "name") with false.
    change (String.eqb "email" "email") with true. cbn iota.
    cbn [field_matches pyval_eqb]. rewrite orb_false_r.
    destruct (String.eqb e e0) eqn:E.
    + apply String.eqb_eq in E. subst e0.
      rewrite (find_none_filter _ _ Hfind). cbn. lia.
    + specialize (Huniq e0). cbn [List.length]. lia.
Qed.

End UniqueEmails.

Lemma register_keeps_emails_unique_witness :
  emails_unique
    (snd (register (hasher := sample_hasher)
            (PDict [("name", PStr "Bob"); ("email", PStr "bob@example.com");
                    ("password", PStr "hunter2")]) sample_world)).
Proof.
  apply (register_keeps_emails_unique (hasher := sample_hasher)).
  - intros d [= <-]. reflexivity.
  - intros e. cbn [users sample_world filter].
    destruct (matches _ sample_user); cbn; lia.
Defined.

(** ** Ids: from a listing back to the store *)

Lemma hex_digit_hex_char (d : N) :
  (d < 16)%N -> hex_digit (hex_char d) = Some d.
Proof.
  intros H. destruct d as [|p]; [reflexivity|].
  do 4 (destruct p as [p|p|]; try reflexivity; try lia).
Qed.

Lemma length_hex_pad (k : nat) (n : N) (s : string) :
  String.length (hex_pad k n s) = k + String.length s.
Proof.
  revert n s. induction k as [|k IH]; intros n s; cbn [hex_pad];
    [reflexivity|].
  rewrite IH. cbn [String.length]. lia.
Qed.

Lemma parse_hex_from_hex_pad (k : nat) (n a : N) (s : string) :
  parse_hex_from a (hex_pad k n s)
  = parse_hex_from (a * 16 ^ N.of_nat k + n mod 16 ^ N.of_nat k)%N s.
Proof.
  revert n a s. induction k as [|k IH]; intros n a s; cbn [hex_pad].
  - cbn [N.of_nat]. rewrite N.pow_0_r, N.mod_1_r. f_equal. lia.
  - rewrite IH. cbn [parse_hex_from].
    rewrite hex_digit_hex_char by (apply N.mod_lt; discriminate).
    f_equal. rewrite Nat2N.inj_succ, N.pow_succ_r'.
    rewrite (N.Div0.mod_mul_r n 16). lia.
Qed.

(** [ObjectId(str(o))] is [o] for every twelve-byte id. *)
Lemma parse_oid_str_oid (o : oid) :
  (o < 16 ^ 24)%N -> parse_oid (str_oid o) = Some o.
Proof.
  intros Ho. unfold parse_oid, str_oid, parse_hex.
  rewrite length_hex_pad. cbn [String.length Nat.add Nat.eqb].
  rewrite parse_hex_from_hex_pad. cbn [parse_hex_from].
  change (N.of_nat 24) with 24%N. rewrite N.mod_small by exact Ho.
  f_equal.
Qed.

(** The [_id] string under which [admin_get_orders] lists an order, given
    to [request_cancellation], reaches that very order: the call answers
    200 and that order, and no other, is flagged. *)
Theorem listed_id_reaches_its_order (w : world) (d : doc) :
  In d (orders w) ->
  NoDup (map doc_id (orders w)) ->
  (doc_id d < 16 ^ 24)%N ->
  (exists listing fields,
      admin_get_orders w = (Return (PList listing, 200%Z), w) /\
      In (PDict fields) listing /\
      dict_get "_id" fields = Some (PStr (str_oid (doc_id d))) /\
      dict_get "user_email" fields = dict_get "user_email" (doc_fields d)) /\
  exists before after,
    orders w = before ++ d :: after /\
    request_cancellation (str_oid (doc_id d)) w
    = (Return (message_body "Cancellation requested successfully", 200%Z),
       set_coll orders_collection
         (before
            ++ set_fields [("cancellationRequested", PBool true)] d :: after)
         w).
Proof.
  intros Hin Hnd Hsmall. split.
  - unfold admin_get_orders.
    rewrite (bind_return _ _ _ _ _ (find_all_run _ _ _)).
    cbn [coll]. rewrite filter_q_all.
    eexists _, _. split; [reflexivity|].
    split; [exact (in_map _ _ d Hin)|].
    split; [reflexivity | apply listed_order_email].
  - pose proof (lookup_unique _ _ Hnd Hin) as Hfind. unfold lookup in Hfind.
    destruct (find_split _ _ _ Hfind) as (before & after & Hl & Hb & Hd).
    exists before, after. split; [exact Hl|].
    exact (request_cancellation_found w _ (doc_id d) d before after
             (parse_oid_str_oid _ Hsmall) Hl Hb Hd).
Qed.

Lemma listed_id_reaches_its_order_witness :
  exists before after,
    orders sample_world = before ++ sample_order :: after /\
    request_cancellation "000000000000000000000003" sample_world
    = (Return (message_body "Cancellation requested successfully", 200%Z),
       set_coll orders_collection
         (before
            ++ set_fields [("cancellationRequested", PBool true)]
                          sample_order :: after)
         sample_world).
Proof.
  refine (proj2 (listed_id_reaches_its_order sample_world sample_order
                   (or_introl eq_refl) _ eq_refl)).
  repeat constructor. intros [].
Defined.

(** ** Exceptions leave nothing half done *)

Lemma raises_cleanly_reads {A} (m : M A) : reads m -> raises_cleanly m.
Proof. intros Hm w e _. apply Hm. Qed.

Lemma raises_cleanly_returns {A} (m : M A) : returns m -> raises_cleanly m.
Proof.
  intros Hm w e He. destruct (Hm w) as (a & w' & Hrun).
  rewrite Hrun in He. discriminate.
Qed.

Lemma raises_cleanly_after_read {A B} (m : M A) (k : A -> M B) :
  reads m -> (forall a, raises_cleanly (k a)) -> raises_cleanly (bind m k).
Proof.
  intros Hm Hk w e. unfold bind. specialize (Hm w).
  destruct (m w) as [[a|e'] w1]; cbn [snd] in Hm; subst w1.
  - apply Hk.
  - reflexivity.
Qed.

Lemma raises_cleanly_before_returns {A B} (m : M A) (k : A -> M B) :
  raises_cleanly m -> (forall a, returns (k a)) -> raises_cleanly (bind m k).
Proof.
  intros Hm Hk w e. unfold bind. specialize (Hm w).
  destruct (m w) as [[a|e'] w1] eqn:Hrun.
  - destruct (Hk a w1) as (b & w2 & Hk'). rewrite Hk'. discriminate.
  - intros _. now apply (Hm e').
Qed.

Lemma returns_bind {A B} (m : M A) (k : A -> M B) :
  returns m -> (forall a, returns (k a)) -> returns (bind m k).
Proof.
  intros Hm Hk w. unfold bind. destruct (Hm w) as (a & w1 & ->).
  apply Hk.
Qed.

Lemma returns_ret {A} (a : A) : returns (ret a).
Proof. intros w. now exists a, w. Qed.

Lemma returns_jsonify_error (msg : string) (code : Z) :
  returns (jsonify_error msg code).
Proof. intros w. eexists _, _. reflexivity. Qed.

Lemma returns_jsonify_message (msg : string) (code : Z) :
  returns (jsonify_message msg code).
Proof. intros w. eexists _, _. reflexivity. Qed.

Lemma returns_update_one (c : collection) (q : query) (sets : dict)
      (upsert : bool) :
  returns (update_one c q sets upsert).
Proof. intros w. apply update_one_returns. Qed.

Lemma returns_insert_one (c : collection) (fields : dict) :
  returns (insert_one c fields).
Proof. intros w. rewrite insert_one_run. eexists _, _. reflexivity. Qed.

Lemma returns_delete_one (c : collection) (q : query) :
  returns (delete_one c q).
Proof.
  intros w. unfold delete_one.
  rewrite (bind_return _ _ _ _ _ (find_one_run c q w)).
  destruct (find _ _); eexists _, _; reflexivity.
Qed.

Lemma returns_delete_many (c : collection) (q : query) :
  returns (delete_many c q).
Proof. intros w. rewrite delete_many_run. eexists _, _. reflexivity. Qed.

Lemma returns_emit (name : string) (data : pyval) : returns (emit name data).
Proof. intros w. eexists _, _. reflexivity. Qed.

Lemma raises_cleanly_generate_password_hash {hasher : PasswordHasher}
      (password : pyval) :
  raises_cleanly (generate_password_hash password).
Proof. destruct password; intros w e He; try reflexivity. discriminate. Qed.

Create HintDb returns discriminated.

#[local] Hint Resolve returns_ret returns_jsonify_error
  returns_jsonify_message returns_update_one returns_insert_one
  returns_delete_one returns_delete_many returns_emit : returns.

Ltac returns_walk :=
  repeat match goal with
         | |- returns (bind _ _) => apply returns_bind; [|intro]
         | |- returns (if ?b then _ else _) => destruct b
         | |- returns _ => solve [auto with returns]
         end.

(** Reads come first; from the first write on, nothing raises. *)
Ltac clean_walk :=
  repeat match goal with
         | |- raises_cleanly (bind ?m _) =>
             first
               [ apply raises_cleanly_after_read;
                 [solve [auto with reads]|intro]
               | apply raises_cleanly_before_returns;
                 [first [ apply raises_cleanly_generate_password_hash
                        | apply raises_cleanly_returns;
                          solve [auto with returns] ]
                 |intro; solve [returns_walk]] ]
         | |- raises_cleanly (if ?b then _ else _) => destruct b
         | |- raises_cleanly (match ?x with _ => _ end) => destruct x
         | |- raises_cleanly _ =>
             first [ apply raises_cleanly_reads; solve [auto with reads]
                   | apply raises_cleanly_returns; solve [returns_walk] ]
         end.

Section CleanRaises.

Context {hasher : PasswordHasher}.

(** A handler whose writes are a single one, made by its last call to a
    library, leaves nothing written behind an exception: whenever the
    handler of such a request raises, the world is exactly as it was before
    the request.  This leaves out the stock update, which broadcasts after
    it wrote, and the deletion of a user, which writes twice. *)
Theorem raising_requests_change_nothing
        (r : request) (w : world) (e : exn) :
  writes_last r = true ->
  fst (dispatch r w) = Raise e -> snd (dispatch r w) = w.
Proof.
  intros Hlast. revert w e. change (raises_cleanly (dispatch r)).
  destruct r; cbn [writes_last] in Hlast; try discriminate Hlast;
    cbn [dispatch].
  - unfold register. clean_walk.
  - unfold login. clean_walk.
  - unfold get_products. clean_walk.
  - unfold create_order, utcnow. clean_walk.
  - unfold get_orders. clean_walk.
  - unfold request_cancellation. clean_walk.
  - unfold admin_get_orders. clean_walk.
  - unfold admin_update_order_status. clean_walk.
  - unfold get_cart. clean_walk.
  - unfold save_cart. clean_walk.
  - unfold admin_get_users. clean_walk.
  - unfold update_admin_credentials. clean_walk.
Qed.

End CleanRaises.

Lemma raising_requests_change_nothing_witness :
  snd (dispatch (hasher := sample_hasher)
         (POST_register (PDict [("name", PStr "Bob");
                                ("email", PStr "bob@example.com");
                                ("password", PInt 7)]))
         sample_world)
  = sample_world.
Proof.
  exact (raising_requests_change_nothing (hasher := sample_hasher)
           (POST_register (PDict [("name", PStr "Bob");
                                  ("email", PStr "bob@example.com");
                                  ("password", PInt 7)]))
           sample_world AttributeError eq_refl eq_refl).
Defined.

(** ** Orders: what a placed order keeps *)

Section OrderHistory.

Context {hasher : PasswordHasher}.

Variable R : doc -> doc -> Prop.
Hypothesis R_refl : forall d, R d d.
Hypothesis R_request :
  forall d0 d,
    R d0 d -> R d0 (set_fields [("cancellationRequested", PBool true)] d).
Hypothesis R_status :
  forall v d0 d, R d0 d -> R d0 (set_fields [("status", v)] d).

Variable w0 : world.

Lemma orders_evolve_frame (w w' : world) :
  orders w' = orders w -> (next_oid w <= next_oid w')%N ->
  orders_evolve R w0 w -> orders_evolve R w0 w'.
Proof.
  intros Ho Hn (Hids0 & (Hnd & Hlt) & Hle & Hrel).
  unfold orders_evolve, ids_ok. rewrite Ho.
  repeat split; try apply Hids0; try assumption.
  - eapply Forall_impl; [|exact Hlt]. cbn beta. intros d Hd. lia.
  - lia.
Qed.

Lemma orders_evolve_insert (w : world) (fields : dict) :
  orders_evolve R w0 w ->
  orders_evolve R w0 (snd (insert_one orders_collection fields w)).
Proof.
  intros (Hids0 & (Hnd & Hlt) & Hle & Hrel).
  rewrite insert_one_run. cbn [snd].
  unfold orders_evolve, ids_ok.
  cbn [orders next_oid set_coll set_next_oid coll].
  repeat split; try apply Hids0.
  - rewrite map_app. cbn [map]. apply NoDup_app; [exact Hnd| |].
    + constructor; [intros []|constructor].
    + intros i Hi [<-|[]]. apply in_map_iff in Hi as (d & Hd & Hin).
      rewrite Forall_forall in Hlt. specialize (Hlt d Hin).
      cbn [doc_id] in Hd. lia.
  - apply Forall_app. split.
    + eapply Forall_impl; [|exact Hlt]. cbn beta. intros d Hd. lia.
    + constructor; [cbn; lia|constructor].
  - lia.
  - intros o d Hd. unfold lookup in Hd. rewrite find_app_cases in Hd.
    destruct (find (matches (q_id o)) (orders w)) as [d1|] eqn:Hfind.
    + injection Hd as <-. now apply Hrel.
    + cbn [find matches doc_id] in Hd.
      destruct (N.eqb (next_oid w) o) eqn:E; [|discriminate].
      apply N.eqb_eq in E.
      destruct (lookup o (orders w0)) as [d0|] eqn:H0; [|lia].
      apply lookup_some in H0 as [Hin Hid].
      destruct Hids0 as [_ Hlt0]. rewrite Forall_forall in Hlt0.
      specialize (Hlt0 d0 Hin). lia.
Qed.

Lemma orders_evolve_update (w : world) (o : oid) (sets : dict) :
  (forall d0 d, R d0 d -> R d0 (set_fields sets d)) ->
  orders_evolve R w0 w ->
  orders_evolve R w0
    (snd (update_one orders_collection (q_id o) sets false w)).
Proof.
  intros Hsets Hw. rewrite update_one_world. cbn [coll].
  destruct (find _ _) as [hit|]; [|exact Hw].
  destruct (update_first _ _ (orders w)) as [l|] eqn:Hup; [|exact Hw].
  apply update_first_pointwise in Hup.
  destruct Hw as (Hids0 & (Hnd & Hlt) & Hle & Hrel).
  unfold orders_evolve, ids_ok. cbn [orders next_oid set_coll].
  repeat split; try apply Hids0; try assumption.
  - now rewrite (pointwise_ids sets _ _ Hup).
  - apply Forall_forall. intros d' Hd'.
    destruct (Forall2_preimage _ _ _ d' Hup Hd') as (d & Hd & Hdd').
    rewrite Forall_forall in Hlt. specialize (Hlt d Hd).
    now destruct Hdd' as [->| ->].
  - intros o' d' Hd'.
    assert (forall d d' : doc,
               d' = d \/ d' = set_fields sets d -> doc_id d' = doc_id d)
      as Hid by (now intros ? ? [->| ->]).
    destruct (lookup_pointwise _ _ _ o' d' Hid Hup Hd') as (d & Hd & Hdd').
    specialize (Hrel o' d Hd).
    destruct (lookup o' (orders w0)); [|exact Hrel].
    destruct Hdd' as [->| ->]; [exact Hrel | now apply Hsets].
Qed.

Lemma orders_evolve_filter (w : world) (p : doc -> bool) :
  orders_evolve R w0 w ->
  orders_evolve R w0 (set_coll orders_collection (filter p (orders w)) w).
Proof.
  intros (Hids0 & (Hnd & Hlt) & Hle & Hrel).
  unfold orders_evolve, ids_ok. cbn [orders next_oid set_coll].
  repeat split; try apply Hids0; try assumption.
  - now apply NoDup_ids_filter.
  - apply Forall_forall. intros d Hd. apply filter_In in Hd as [Hd _].
    rewrite Forall_forall in Hlt. now apply Hlt.
  - intros o d Hd. apply Hrel.
    apply lookup_some in Hd as [Hin <-].
    apply filter_In in Hin as [Hin _]. now apply lookup_unique.
Qed.

Lemma orders_evolve_elsewhere (w : world) (c : collection) (q : query)
      (sets : dict) (upsert : bool) :
  c <> orders_collection ->
  orders_evolve R w0 w ->
  orders_evolve R w0 (snd (update_one c q sets upsert w)).
Proof.
  intros Hc Hw. rewrite update_one_world.
  destruct (find _ _);
    [destruct (update_first _ _ _); [|exact Hw]
    |destruct upsert; [|exact Hw]];
    (apply (orders_evolve_frame w);
     [now destruct c | destruct c; cbn; lia | exact Hw]).
Qed.

Lemma orders_evolve_serve (rs : list request) :
  ids_ok w0 -> orders_evolve R w0 (serve rs w0).
Proof.
  intros Hids.
  apply (keeps_serve (orders_evolve R w0)).
  - intros w n. apply orders_evolve_frame; [reflexivity|apply N.le_refl].
  - intros w l. apply orders_evolve_frame; [reflexivity|apply N.le_refl].
  - intros name email h w Hw. rewrite insert_one_run.
    apply (orders_evolve_frame w); [reflexivity|cbn; lia|exact Hw].
  - intros ? ? ? ? ? ? w Hw. now apply orders_evolve_insert.
  - intros q v w. now apply orders_evolve_elsewhere.
  - intros o w. apply orders_evolve_update. apply R_request.
  - intros o v w. apply orders_evolve_update. apply R_status.
  - intros q v w. now apply orders_evolve_elsewhere.
  - intros q e h w. now apply orders_evolve_elsewhere.
  - intros q w Hw. rewrite delete_one_world.
    destruct (find _ _); [|exact Hw].
    apply (orders_evolve_frame w); [reflexivity|apply N.le_refl|exact Hw].
  - intros q w Hw. rewrite delete_many_run.
    now apply orders_evolve_filter.
  - repeat split; try apply Hids; [apply N.le_refl|].
    intros o d Hd. rewrite Hd. apply R_refl.
Qed.

End OrderHistory.

Section OrderContents.

Context {hasher : PasswordHasher}.

(** A placed order is a snapshot: from a store with distinct order ids,
    whatever requests are served, an order that is still stored under its id
    has the email, items, city, pincode, total price, date and every other
    field it had, except possibly [status] and [cancellationRequested]. *)
Theorem placed_orders_keep_their_contents
        (w0 : world) (rs : list request) (o : oid) (d0 d : doc) :
  ids_ok w0 ->
  lookup o (orders w0) = Some d0 ->
  lookup o (orders (serve rs w0)) = Some d ->
  doc_id d = doc_id d0 /\ same_order_contents d0 d.
Proof.
  intros Hids H0 Hd. split.
  - apply lookup_some in H0 as [_ ->]. now apply lookup_some in Hd as [_ ->].
  - assert (orders_evolve same_order_contents w0 (serve rs w0))
      as (_ & _ & _ & Hrel).
    { apply orders_evolve_serve; [| | |exact Hids].
      - now intros d1 k.
      - intros d1 d2 H k Hs Hc. unfold set_fields, apply_set.
        cbn [doc_fields fold_left fst snd].
        rewrite dict_get_set_other by assumption. now apply H.
      - intros v d1 d2 H k Hs Hc. unfold set_fields, apply_set.
        cbn [doc_fields fold_left fst snd].
        rewrite dict_get_set_other by assumption. now apply H. }
    specialize (Hrel o d Hd). now rewrite H0 in Hrel.
Qed.

End OrderContents.

Lemma placed_orders_keep_their_contents_witness :
  exists d,
    lookup 3%N (orders (serve (hasher := sample_hasher)
                        sample_requests sample_world)) = Some d /\
    same_order_contents sample_order d.
Proof.
  eexists. split; [reflexivity|].
  refine (proj2 (placed_orders_keep_their_contents (hasher := sample_hasher)
                   sample_world sample_requests 3%N sample_order _ _ eq_refl
                   eq_refl)).
  split.
  - repeat constructor. intros [].
  - repeat constructor.
Defined.

(** ** Cart: what is accepted and what is kept *)

Lemma set_items_keeps_matches (k : string) (x v : pyval) (d : doc) :
  k <> "items" ->
  matches (q_field k x) (set_fields [("items", v)] d)
  = matches (q_field k x) d.
Proof.
  intros Hk. unfold matches, set_fields, apply_set.
  cbn [doc_fields fold_left fst snd].
  now rewrite dict_get_set_other by assumption.
Qed.

(** [save_cart] keeps carts unique when the submitted [user_email] is text:
    on a store where every email string finds at most one cart, the same
    holds after the call, whatever the body and however the call ends. *)
Theorem save_cart_keeps_carts_unique (w : world) (data : pyval) :
  (forall d, data = PDict d ->
             text_or_absent (body_field d "user_email") = true) ->
  carts_unique w ->
  carts_unique (snd (save_cart data w)).
Proof.
  intros Htext Huniq.
  destruct data as [| | | | |d];
    try (unfold save_cart;
         rewrite (bind_raise _ _ w w AttributeError) by reflexivity;
         exact Huniq).
  specialize (Htext d eq_refl). unfold save_cart.
  rewrite (bind_return _ _ _ _ _ (py_get_dict d "user_email" w)).
  rewrite (bind_return _ _ _ _ _ (py_get_dict d "items" w)).
  destruct (body_field d "user_email") as [| | |e| |]; try discriminate;
    [exact Huniq|].
  destruct (_ || _); [exact Huniq|].
  set (q := q_field "user_email" (PStr e)).
  destruct (find (matches q) (carts w)) as [c|] eqn:Hfind.
  - destruct (find_split _ _ _ Hfind) as (before & after & Hl & Hb & Hc).
    destruct (update_one_found cart_collection q
                [("items", body_field d "items")] true w c before after
                Hl Hb Hc) as (modified & Hup).
    rewrite (bind_return _ _ _ _ _ Hup). cbn [snd jsonify_message ret].
    intros e0. cbn [carts set_coll].
    specialize (Huniq e0). rewrite Hl in Huniq.
    rewrite filter_app_docs in *. cbn [filter] in *.
    rewrite (set_items_keeps_matches "user_email" (PStr e0)
               (body_field d "items") c) by discriminate.
    rewrite length_app in *.
    destruct (matches (q_field "user_email" (PStr e0)) c);
      cbn [List.length] in *; exact Huniq.
  - rewrite (bind_return _ _ _ _ _
               (update_one_upsert cart_collection q _ w Hfind)).
    cbn [snd jsonify_message ret]. intros e0.
    cbn [carts set_coll set_next_oid coll].
    rewrite filter_app_docs, length_app. subst q.
    assert (matches (q_field "user_email" (PStr e0))
              (mk_doc (next_oid w)
                 (apply_set [("items", body_field d "items")]
                    (query_fields (q_field "user_email" (PStr e)))))
            = String.eqb e e0) as Hm by (cbn; apply orb_false_r).
    cbn [filter]. rewrite Hm.
    destruct (String.eqb e e0) eqn:E.
    + apply String.eqb_eq in E. subst e0.
      rewrite (find_none_filter _ _ Hfind). cbn. lia.
    + specialize (Huniq e0). cbn [List.length]. lia.
Qed.

Lemma save_cart_keeps_carts_unique_witness :
  carts_unique
    (snd (save_cart (PDict [("user_email", PStr "ann@example.com");
                            ("items", PList [])]) sample_world)).
Proof.
  apply save_cart_keeps_carts_unique.
  - intros d [= <-]. reflexivity.
  - intros e. cbn [carts sample_world filter].
    destruct (matches _ sample_cart); cbn; lia.
Defined.

(** ** Accounts: presence checks *)

Lemma never_answers_bind {A B} (b : B) (m : M A) (k : A -> M B) :
  (forall a, never_answers b (k a)) -> never_answers b (bind m k).
Proof.
  intros Hk w. unfold bind. destruct (m w) as [[a|e] w1].
  - apply Hk.
  - discriminate.
Qed.

Lemma never_answers_raise {A} (a : A) (e : exn) : never_answers a (raise e).
Proof. intros w. discriminate. Qed.

Lemma never_answers_other (resp resp' : response) :
  resp' <> resp -> never_answers resp (ret resp').
Proof. intros Hne w [= E]. now destruct Hne. Qed.

Ltac never_walk :=
  repeat match goal with
         | |- never_answers _ (bind _ _) => apply never_answers_bind; intro
         | |- never_answers _ (if ?b then _ else _) => destruct b
         | |- never_answers _ (match ?x with _ => _ end) => destruct x
         | |- never_answers _ (jsonify_error _ _) =>
             apply never_answers_other; discriminate
         | |- never_answers _ (jsonify_message _ _) =>
             apply never_answers_other; discriminate
         | |- never_answers _ (ret _) =>
             apply never_answers_other; discriminate
         end.

Section PresenceChecks.

Context {hasher : PasswordHasher}.

(** On an object body, [register] answers 400 "Missing required fields"
    exactly when the name, the email or the password is missing, null or
    otherwise falsy, [login] answers 400 "Missing email or password"
    exactly when the email or the password is, and
    [update_admin_credentials] answers 400 "Missing required fields"
    exactly when one of its three fields is; in each case the world is
    unchanged. *)
Theorem account_fields_must_be_truthy (w : world) (d : dict) :
  (falsy (body_field d "name") \/ falsy (body_field d "email") \/
   falsy (body_field d "password") <->
   register (PDict d) w
   = (Return (error_body "Missing required fields", 400%Z), w)) /\
  (falsy (body_field d "email") \/ falsy (body_field d "password") <->
   login (PDict d) w
   = (Return (error_body "Missing email or password", 400%Z), w)) /\
  (falsy (body_field d "current_email") \/
   falsy (body_field d "new_email") \/ falsy (body_field d "new_password") <->
   update_admin_credentials (PDict d) w
   = (Return (error_body "Missing required fields", 400%Z), w)).
Proof.
  repeat split.
  - intros H. unfold register. do 3 step.
    rewrite <- !truthy_false_iff in H.
    destruct H as [-> |[-> | ->]]; cbn [negb orb];
      rewrite ?orb_true_r; reflexivity.
  - unfold register. do 3 step.
    destruct (truthy (body_field d "name")) eqn:E1;
      [|intros _; left; now apply truthy_false_iff].
    destruct (truthy (body_field d "email")) eqn:E2;
      [|intros _; right; left; now apply truthy_false_iff].
    destruct (truthy (body_field d "password")) eqn:E3;
      [|intros _; right; right; now apply truthy_false_iff].
    cbn [negb orb]. intros H. exfalso. revert H.
    match goal with
    | |- ?m w = (Return ?resp, w) -> False =>
        assert (never_answers resp m) as Hnever
    end.
    { never_walk. }
    intros H. apply (Hnever w). now rewrite H.
  - intros H. unfold login. do 2 step.
    rewrite <- !truthy_false_iff in H.
    destruct H as [-> | ->]; cbn [negb orb];
      rewrite ?orb_true_r; reflexivity.
  - unfold login. do 2 step.
    destruct (truthy (body_field d "email")) eqn:E1;
      [|intros _; left; now apply truthy_false_iff].
    destruct (truthy (body_field d "password")) eqn:E2;
      [|intros _; right; now apply truthy_false_iff].
    cbn [negb orb]. intros H. exfalso. revert H.
    match goal with
    | |- ?m w = (Return ?resp, w) -> False =>
        assert (never_answers resp m) as Hnever
    end.
    { never_walk. }
    intros H. apply (Hnever w). now rewrite H.
  - intros H. unfold update_admin_credentials. do 3 step.
    rewrite <- !truthy_false_iff in H.
    destruct H as [-> |[-> | ->]]; cbn [negb orb];
      rewrite ?orb_true_r; reflexivity.
  - unfold update_admin_credentials. do 3 step.
    destruct (truthy (body_field d "current_email")) eqn:E1;
      [|intros _; left; now apply truthy_false_iff].
    destruct (truthy (body_field d "new_email")) eqn:E2;
      [|intros _; right; left; now apply truthy_false_iff].
    destruct (truthy (body_field d "new_password")) eqn:E3;
      [|intros _; right; right; now apply truthy_false_iff].
    cbn [negb orb]. intros H. exfalso. revert H.
    match goal with
    | |- ?m w = (Return ?resp, w) -> False =>
        assert (never_answers resp m) as Hnever
    end.
    { never_walk. }
    intros H. apply (Hnever w). now rewrite H.
Qed.

End PresenceChecks.

Lemma account_fields_must_be_truthy_witness :
  login (hasher := sample_hasher)
    (PDict [("email", PStr "ann@example.com"); ("password", PStr "")])
    sample_world
  = (Return (error_body "Missing email or password", 400%Z), sample_world).
Proof.
  apply (proj1 (proj2 (account_fields_must_be_truthy
                         (hasher := sample_hasher) sample_world
                         [("email", PStr "ann@example.com");
                          ("password", PStr "")]))).
  right. unfold falsy. cbn. auto 6.
Defined.

(** * Statements over plain values *)

(** ** The ISO form reads back *)







(** ** Stock updates and carts *)





(** ** Deleting a user *)





(** ** Registration *)

Section RegisterStores.

Context {hasher : PasswordHasher}.


End RegisterStores.


(** ** Creating orders *)



(** C7, as amended.  On a body that is an object, [create_order] answers
    400 exactly when [user_email], [items], [city] or [pincode] is missing,
    null or otherwise falsy (empty string, empty list, empty object, the
    number 0, false) or [total_price] is missing or null; otherwise it never
    answers 400, and when [items] is a list of objects, the order fields
    are plain and the images of the products are short, it answers 201 and
    appends the order. *)
Theorem create_order_rejects_falsy_fields (w : world) (data : dict) :
  let missing :=
    falsy (body_field data "user_email") \/ falsy (body_field data "items") \/
    falsy (body_field data "city") \/ falsy (body_field data "pincode") \/
    body_field data "total_price" = PNone in
  (missing ->
   create_order (PDict data) w
   = (Return (error_body "Missing required order fields", 400%Z), w)) /\
  (~ missing ->
   forall body, fst (create_order (PDict data) w) <> Return (body, 400%Z)) /\
  (~ missing ->
   order_body_plain (PDict data) = true -> images_light w = true ->
   forall items, body_field data "items" = PList (map PDict items) ->
   create_order (PDict data) w
   = (Return (message_body "Order placed successfully", 201%Z),
      set_coll orders_collection (orders w ++ [new_order w data items])
               (set_next_oid (N.succ (next_oid w)) w))).
Proof.
  intros missing. rewrite create_order_run.
  pose proof (order_rejected_iff data) as Hiff. fold missing in Hiff.
  repeat split.
  - intros Hm. apply Hiff in Hm. now rewrite Hm.
  - intros Hm body.
    destruct (order_rejected data); [now destruct Hm; apply Hiff|].
    destruct (py_iter _ w) as [[elements|e] w1]; [|discriminate].
    destruct (enrich_items elements [] w) as [[r|e] w2]; discriminate.
  - intros Hm _ _ items Hitems.
    destruct (order_rejected data); [now destruct Hm; apply Hiff|].
    rewrite Hitems. cbn [py_iter ret].
    now rewrite enrich_items_dicts.
Qed.

Lemma create_order_rejects_falsy_fields_witness :
  fst (create_order
         (PDict [("user_email", PStr "ann@example.com");
                 ("items", PList [PDict [("id", PInt 42)]]);
                 ("city", PStr "Pune"); ("pincode", PInt 411001);
                 ("total_price", PInt 0)])
         sample_world)
  = Return (message_body "Order placed successfully", 201%Z).
Proof.
  rewrite (proj2 (proj2 (create_order_rejects_falsy_fields sample_world
             [("user_email", PStr "ann@example.com");
              ("items", PList [PDict [("id", PInt 42)]]);
              ("city", PStr "Pune"); ("pincode", PInt 411001);
              ("total_price", PInt 0)]))
             ltac:(unfold falsy; cbn;
                   intros [H|[H|[H|[H|H]]]];
                   try discriminate;
                   repeat (destruct H as [H|H]; try discriminate);
                   discriminate)
             eq_refl eq_refl [[("id", PInt 42)]] eq_refl).
  reflexivity.
Defined.

(** After [create_order] answered 201 for the email [e] to a body whose
    order fields are plain, [get_orders e] lists what it listed before followed by the new order, whose [_id] is
    the id the store handed out; the listing of any other email is as it
    was. *)
Theorem created_order_is_listed_for_its_user
        (w w' : world) (data : dict) (body : pyval) (e : string) :
  order_body_plain (PDict data) = true ->
  create_order (PDict data) w = (Return (body, 201%Z), w') ->
  body_field data "user_email" = PStr e ->
  exists listing items,
    get_orders e w = (Return (PList listing, 200%Z), w) /\
    body_field data "items" = PList (map PDict items) /\
    get_orders e w'
    = (Return (PList (listing
                        ++ [PDict (("_id", PStr (str_oid (next_oid w)))
                                     :: doc_fields (new_order w data items))]),
               200%Z), w') /\
    forall e', e' <> e -> fst (get_orders e' w') = fst (get_orders e' w).
Proof.
  intros _ Hrun He.
  destruct (create_order_success w w' (PDict data) body Hrun)
    as (fields & items & [= <-] & Hitems & ->).
  assert (forall e',
             matches (q_field "user_email" (PStr e'))
                     (new_order w data items)
             = String.eqb e e') as Hm.
  { intros e'. cbn [matches new_order doc_fields dict_get].
    change (String.eqb "user_email" "user_email") with true.
    cbn iota. rewrite He. cbn [field_matches pyval_eqb]. apply orb_false_r. }
  eexists _, items. rewrite !get_orders_run.
  split; [reflexivity|]. split; [exact Hitems|].
  cbn [orders set_coll set_next_oid].
  split.
  - rewrite filter_app_docs, map_app. cbn [filter].
    rewrite Hm, String.eqb_refl. reflexivity.
  - intros e' Hne. rewrite !get_orders_run. cbn [fst orders set_coll].
    rewrite filter_app_docs. cbn [filter]. rewrite Hm.
    destruct (String.eqb e e') eqn:E.
    + apply String.eqb_eq in E. now destruct Hne.
    + now rewrite app_nil_r.
Qed.

Lemma created_order_is_listed_for_its_user_witness :
  exists listing items,
    get_orders "bob@example.com"
      (snd (create_order sample_order_request sample_world))
    = (Return (PList (listing
                        ++ [PDict (("_id", PStr "000000000000000000000010")
                                     :: doc_fields
                                          (new_order sample_world
                                             sample_order_body items))]),
               200%Z),
       snd (create_order sample_order_request sample_world)).
Proof.
  destruct (created_order_is_listed_for_its_user
              sample_world
              (snd (create_order sample_order_request sample_world))
              sample_order_body
              (message_body "Order placed successfully")
              "bob@example.com" eq_refl eq_refl eq_refl)
    as (listing & items & _ & _ & Hafter & _).
  exists listing, items. exact Hafter.
Defined.

(** ** Answers to typed requests *)

Lemma not_hex_stops_parse (s : string) (a : N) :
  existsb (fun c => negb (is_hex c || is_space c)) (list_ascii_of_string s)
  = true ->
  parse_hex_from a s = None.
Proof.
  revert a. induction s as [|c s IH]; intros a; cbn [list_ascii_of_string
                                                     existsb parse_hex_from];
    [discriminate|].
  unfold is_hex at 1. destruct (hex_digit c) as [d|]; [|reflexivity].
  cbn [orb negb]. apply IH.
Qed.

Lemma surely_not_an_id_refused (s : string) :
  surely_not_an_id s = true -> parse_oid s = None.
Proof.
  unfold surely_not_an_id, parse_oid, parse_hex.
  destruct (Nat.eqb (String.length s) 24); [|reflexivity].
  cbn [negb orb]. apply not_hex_stops_parse.
Qed.

Lemma text_is_text_or_absent (v : pyval) :
  text v = true -> text_or_absent v = true.
Proof. unfold text. now intros [H _]%andb_true_iff. Qed.

Lemma typed_well_formed (r : request) :
  typed r = true -> well_formed r = true.
Proof.
  destruct r as [data|data| |product_id data|data|user_email|order_id|
                 |order_id data|user_email|data| |user_id|data];
    cbn [typed well_formed]; try reflexivity;
    try (destruct data; cbn [body_ok is_dict andb];
         rewrite ?andb_false_r; try discriminate);
    rewrite ?andb_true_iff; intros H; decompose [and] H;
    auto using text_is_text_or_absent.
Qed.

Section TypedAnswers.

Context {hasher : PasswordHasher}.

(** C8, as amended.  In a store whose users carry a name, a password hash
    the library wrote and a plain email, and whose product images are
    short, a request within the types of the specification (object bodies,
    plain text as emails and passwords, plain values, lists of objects as
    items, ids of twenty-four hexadecimal digits, product ids within 64
    bits) that is not a stock update reaching the broadcast is answered
    with a success or with [{error: message}] and a status among 400, 401,
    404 and 500; an order id that is surely refused makes
    [request_cancellation] and [admin_update_order_status] raise
    [InvalidId], which nothing catches. *)
Theorem well_formed_requests_are_answered (w : world) (r : request) :
  users_sound w -> images_light w = true ->
  typed r = true -> reaches_broadcast r w = false ->
  answers (dispatch r) w /\
  (forall order_id w1,
      surely_not_an_id order_id = true ->
      request_cancellation order_id w1 = (Raise InvalidId, w1) /\
      forall d, truthy (body_field d "status") = true ->
                admin_update_order_status order_id (PDict d) w1
                = (Raise InvalidId, w1)).
Proof.
  intros [Hok _] _ Hr _. split.
  - apply well_formed_answers; [exact Hok|]. now apply typed_well_formed.
  - intros order_id w1 Hsure.
    pose proof (surely_not_an_id_refused order_id Hsure) as Hparse. split.
    + unfold request_cancellation.
      now rewrite (bind_raise _ _ _ _ _ (ObjectId_invalid _ w1 Hparse)).
    + intros d Hstatus. unfold admin_update_order_status. step.
      rewrite Hstatus. cbn [negb].
      now rewrite (bind_raise _ _ _ _ _ (ObjectId_invalid _ w1 Hparse)).
Qed.

End TypedAnswers.

Lemma sample_users_sound : users_sound (hasher := sample_hasher) sample_world.
Proof.
  split; [reflexivity|]. intros u [<-|[]]. split; [|reflexivity].
  intros h [= <-]. exists "000000000000000000000000", "secret". reflexivity.
Qed.

Lemma well_formed_requests_are_answered_witness :
  answers (dispatch (hasher := sample_hasher)
             (POST_stock 7 (PDict [("stock", PInt 3)])))
          sample_world /\
  request_cancellation "not-an-id" sample_world
  = (Raise InvalidId, sample_world).
Proof.
  destruct (well_formed_requests_are_answered (hasher := sample_hasher)
              sample_world (POST_stock 7 (PDict [("stock", PInt 3)]))
              sample_users_sound eq_refl eq_refl eq_refl) as [Hans Hraise].
  split; [exact Hans|].
  exact (proj1 (Hraise "not-an-id" sample_world eq_refl)).
Defined.

(** ** Credentials and carts *)

Section CredentialsExactly.

Context {hasher : PasswordHasher}.

(** [update_admin_credentials] with the three fields present: no user with
    the current email gives 404 and an unchanged world; otherwise the first
    such user gets the new email and the salted hash of the new password,
    keeps its id and every other field, and no other user, order, cart or
    product changes.  The answer is 500 exactly when the rewritten user is
    identical to the stored one, and 200 exactly when it differs; a user
    whose email differed from the new one always gives 200. *)
Theorem update_admin_credentials_rewrites_one_user
        (w : world) (data : dict) (cur new p : string) :
  body_field data "current_email" = PStr cur -> cur <> "" ->
  body_field data "new_email" = PStr new -> new <> "" ->
  body_field data "new_password" = PStr p -> p <> "" ->
  let q := q_field "email" (PStr cur) in
  (find (matches q) (users w) = None ->
   update_admin_credentials (PDict data) w
   = (Return (error_body "Admin user not found", 404%Z), w)) /\
  (forall u,
      find (matches q) (users w) = Some u ->
      exists before after u' resp,
        users w = before ++ u :: after /\
        (forall x, In x before -> matches q x = false) /\
        update_admin_credentials (PDict data) w
        = (Return resp,
           set_coll users_collection (before ++ u' :: after)
                    (set_entropy (N.succ (entropy w)) w)) /\
        doc_id u' = doc_id u /\
        dict_get "email" (doc_fields u') = Some (PStr new) /\
        dict_get "password" (doc_fields u')
        = Some (PStr (hash_with (salt_of (entropy w)) p)) /\
        (forall k, k <> "email" -> k <> "password" ->
                   dict_get k (doc_fields u') = dict_get k (doc_fields u)) /\
        (resp = (error_body "Failed to update admin credentials", 500%Z)
         <-> doc_fields u' = doc_fields u) /\
        (resp = (message_body "Admin credentials updated successfully",
                 200%Z)
         <-> doc_fields u' <> doc_fields u) /\
        (dict_get "email" (doc_fields u) <> Some (PStr new) ->
         resp = (message_body "Admin credentials updated successfully",
                 200%Z))).
Proof.
  intros Hcur Hc Hnew Hn Hpw Hp q. split.
  - intros Hnone. unfold update_admin_credentials.
    rewrite (bind_return _ _ _ _ _ (py_get_dict data "current_email" w)).
    rewrite (bind_return _ _ _ _ _ (py_get_dict data "new_email" w)).
    rewrite (bind_return _ _ _ _ _ (py_get_dict data "new_password" w)).
    rewrite Hcur, Hnew, Hpw, (truthy_str cur Hc), (truthy_str new Hn),
      (truthy_str p Hp).
    cbn [negb orb].
    rewrite (bind_return _ _ _ _ _ (find_one_run _ _ _)). cbn [coll].
    fold q. now rewrite Hnone.
  - intros u Hfind.
    destruct (find_split _ _ _ Hfind) as (before & after & Hl & Hb & Hu).
    set (u' := set_fields
                 [("email", PStr new);
                  ("password", PStr (hash_with (salt_of (entropy w)) p))] u).
    assert (dict_get "email" (doc_fields u') = Some (PStr new)) as Hemail'.
    { unfold u', set_fields, apply_set. cbn [doc_fields fold_left fst snd].
      rewrite dict_get_set_other by discriminate. apply dict_get_set_same. }
    exists before, after, u'. eexists.
    split; [exact Hl|]. split; [exact Hb|].
    split; [exact (update_admin_credentials_found w data cur new p u before
                     after Hcur Hc Hnew Hn Hpw Hp Hl Hb Hu)|].
    fold u'.
    split; [reflexivity|]. split; [exact Hemail'|].
    split.
    { unfold u', set_fields, apply_set. cbn [doc_fields fold_left fst snd].
      apply dict_get_set_same. }
    split.
    { intros k Hk1 Hk2. unfold u', set_fields, apply_set.
      cbn [doc_fields fold_left fst snd].
      now rewrite !dict_get_set_other by assumption. }
    destruct (dict_eqb (doc_fields u) (doc_fields u')) eqn:E.
    + apply dict_eqb_eq in E.
      split; [split; [now intros _ | reflexivity]|].
      split; [split; [discriminate | intros Hdiff; now destruct Hdiff]|].
      intros Hdiff. destruct Hdiff. rewrite E. exact Hemail'.
    + assert (doc_fields u' <> doc_fields u) as Hne.
      { intros Heq. rewrite Heq in E. unfold dict_eqb in E.
        rewrite pyval_eqb_refl in E. discriminate. }
      split; [split; [discriminate | intros Heq; now destruct Hne]|].
      split; [split; [now intros _ | reflexivity]|].
      reflexivity.
Qed.

End CredentialsExactly.

Lemma update_admin_credentials_rewrites_one_user_witness :
  exists resp w',
    update_admin_credentials (hasher := sample_hasher)
      (PDict [("current_email", PStr "ann@example.com");
              ("new_email", PStr "admin@example.com");
              ("new_password", PStr "s3cret")]) sample_world
    = (Return resp, w') /\
    resp = (message_body "Admin credentials updated successfully", 200%Z).
Proof.
  destruct (proj2 (update_admin_credentials_rewrites_one_user
                     (hasher := sample_hasher) sample_world
                     [("current_email", PStr "ann@example.com");
                      ("new_email", PStr "admin@example.com");
                      ("new_password", PStr "s3cret")]
                     "ann@example.com" "admin@example.com" "s3cret"
                     eq_refl ltac:(discriminate) eq_refl ltac:(discriminate)
                     eq_refl ltac:(discriminate))
                  sample_user eq_refl)
    as (before & after & u' & resp & _ & _ & Hrun & _ & _ & _ & _ & _ & _
        & Hok).
  eexists resp, _. split; [exact Hrun|]. apply Hok. discriminate.
Defined.

(** [save_cart] on an object body answers 400 and changes nothing exactly
    when [user_email] is missing, null or otherwise falsy or [items] is
    missing or null; any other plain [items], the empty list included,
    under a plain [user_email], is accepted with 200 and is what the first
    cart found under that [user_email] holds afterwards. *)
Theorem save_cart_accepts_all_but_null_items (w : world) (data : dict) :
  let v := body_field data "user_email" in
  let items := body_field data "items" in
  (falsy v \/ items = PNone ->
   save_cart (PDict data) w
   = (Return (error_body "Missing user_email or items", 400%Z), w)) /\
  (~ (falsy v \/ items = PNone) ->
   plain v = true -> plain items = true ->
   exists w' c,
     save_cart (PDict data) w
     = (Return (message_body "Cart saved successfully", 200%Z), w') /\
     find (matches (q_field "user_email" v)) (carts w') = Some c /\
     dict_get "items" (doc_fields c) = Some items).
Proof.
  intros v items. unfold save_cart.
  rewrite (bind_return _ _ _ _ _ (py_get_dict data "user_email" w)).
  rewrite (bind_return _ _ _ _ _ (py_get_dict data "items" w)).
  fold v items. split.
  - intros [Hv| ->].
    + apply truthy_false_iff in Hv. now rewrite Hv.
    + cbn [is_None]. now rewrite orb_true_r.
  - intros Hok _ _.
    assert (truthy v = true) as Hv.
    { destruct (truthy v) eqn:E; [reflexivity|].
      destruct Hok. left. now apply truthy_false_iff. }
    assert (items <> PNone) as Hitems by (intros E; destruct Hok; now right).
    rewrite Hv, (is_None_false _ Hitems). cbn [negb orb].
    set (q := q_field "user_email" v).
    destruct (find (matches q) (carts w)) as [d|] eqn:Hfind.
    + destruct (find_split _ _ _ Hfind) as (before & after & Hl & Hb & Hd).
      destruct (update_one_found cart_collection q [("items", items)] true
                  w d before after Hl Hb Hd) as (modified & Hup).
      rewrite (bind_return _ _ _ _ _ Hup).
      eexists _, (set_fields [("items", items)] d).
      split; [reflexivity|]. cbn [carts set_coll].
      split; [|apply dict_get_set_same].
      rewrite find_app_skip by exact Hb. cbn [find]. subst q.
      rewrite (set_items_keeps_matches "user_email" v items d)
        by discriminate.
      now rewrite Hd.
    + rewrite (bind_return _ _ _ _ _
                 (update_one_upsert cart_collection q _ w Hfind)).
      eexists _, (mk_doc (next_oid w) [("user_email", v); ("items", items)]).
      split; [reflexivity|]. cbn [carts set_coll set_next_oid coll].
      split; [|reflexivity].
      rewrite find_app_skip by (apply find_none_all; exact Hfind).
      subst q. cbn [find matches doc_fields dict_get query_fields apply_set
                    fold_left fst snd dict_set].
      change (String.eqb "items" "user_email") with false.
      change (String.eqb "user_email" "user_email") with true. cbn iota.
      now rewrite field_matches_same.
Qed.

Lemma save_cart_accepts_all_but_null_items_witness :
  exists w' c,
    save_cart (PDict [("user_email", PStr "ann@example.com");
                      ("items", PList [])]) sample_world
    = (Return (message_body "Cart saved successfully", 200%Z), w') /\
    find (matches (q_field "user_email" (PStr "ann@example.com"))) (carts w')
    = Some c /\
    dict_get "items" (doc_fields c) = Some (PList []).
Proof.
  apply (proj2 (save_cart_accepts_all_but_null_items sample_world
                  [("user_email", PStr "ann@example.com");
                   ("items", PList [])])); [|reflexivity|reflexivity].
  unfold falsy. cbn.
  intros [[H|[H|[H|[H|[H|H]]]]]|H]; discriminate.
Defined.
